(** * Tuition agent: the log bridge, the orchestrator and the tool executor

    A shallow embedding of [src/agent/agent.js].  The agent is glue between
    four outside parties: the Firestore collection 'chats', the Gemini model,
    the tuition REST backend reached through axios, and the console.  Every
    interaction with one of them is an [event]; the code is written in a
    monad [M] that reads the history of events so far, asks the [World] what
    the outside party answers, and emits the event together with that answer.
    A rejected promise / thrown exception is the [Throw] branch of [result],
    [try ... catch] is [catch] of ExtLib's [MonadExc], [await] is plain
    sequencing.

    What the model covers and what it leaves out:
    - one run of the async callback that [forEach] starts for one document
      change ([on_change]).  The callbacks of different changes interleave
      at their awaits; a run only depends on the others through what the
      outside parties answer, and the statements below hold for every
      [World], whatever it answers;
    - the response of the model is read through [candidates] and [text], as
      the code does; how the SDK derives [text] is not part of the code;
    - JavaScript numbers are kept to the integers, and the text the engine
      prints for a number is the world's [Number_toString];
    - a console line is recorded as data, with the values it is given: the
      text the console prints for them is not modelled.  The name of a
      function call is a string or [undefined] in the SDK's types, and the
      two lines of the executor that interpolate it are kept as data as
      well;
    - the top level of the file, from [dotenv.config()] to the callback of
      [app.listen], is the module [Boot]; the handlers of the front end
      are the module [Client]. *)

From Stdlib Require Import String Ascii List ZArith Lia Bool.
From Stdlib Require Import DecimalString.
From ExtLib Require Import Structures.Monad Structures.MonadExc.
Import ListNotations.
Import MonadNotation.
Local Open Scope string_scope.
Local Open Scope monad_scope.

Set Implicit Arguments.

(* ------------------------------------------------------------------ *)
(** ** JavaScript values *)

(** JSON-shaped JavaScript values: what tool arguments, HTTP bodies and the
    [processed] field of a document can hold.  Numbers are kept to the
    integers; an object is its list of fields in insertion order. *)
#[warnings="-register-all"]
Inductive value : Type :=
| VUndefined
| VNull
| VBool (b : bool)
| VNum (n : Z)
| VStr (s : string)
| VObj (fields : list (string * value))
| VArr (items : list value).

(** [!!v] of JavaScript. *)
Definition truthy (v : value) : bool :=
  match v with
  | VUndefined | VNull => false
  | VBool b => b
  | VNum n => negb (n =? 0)%Z
  | VStr s => negb (s =? "")
  | VObj _ | VArr _ => true
  end.

(** What is thrown: only [error.message] is ever read. *)
Record exn : Type := Error { message : string }.

Inductive result (A : Type) : Type :=
| Ok (a : A)
| Throw (e : exn).
Arguments Ok {A} a.
Arguments Throw {A} e.

Definition has_own (key : string) (fields : list (string * value)) : bool :=
  existsb (fun kv => fst kv =? key) fields.

Definition cannot_convert : exn :=
  Error "Cannot convert object to primitive value".

(** What a template literal [`${v}`] does with [v]: the string it
    interpolates, or the TypeError it throws.  [show] is the engine's
    Number::toString.  An object is printed by [Object.prototype.toString]
    unless it has a property [toString] of its own: no JSON value is
    callable, [valueOf] then gives no primitive either, and the conversion
    throws.  An array is printed by [join]: its elements separated by
    commas, [undefined] and [null] as the empty string. *)
Fixpoint ToString (show : Z -> string) (v : value) : result string :=
  match v with
  | VUndefined => Ok "undefined"
  | VNull => Ok "null"
  | VBool true => Ok "true"
  | VBool false => Ok "false"
  | VNum n => Ok (show n)
  | VStr s => Ok s
  | VObj fields =>
      if has_own "toString" fields then Throw cannot_convert
      else Ok "[object Object]"
  | VArr items =>
      let element x :=
        match x with VUndefined | VNull => Ok "" | _ => ToString show x end in
      (fix join (l : list value) : result string :=
         match l with
         | [] => Ok ""
         | [x] => element x
         | x :: rest =>
             match element x with
             | Throw e => Throw e
             | Ok first =>
                 match join rest with
                 | Throw e => Throw e
                 | Ok others => Ok (first ++ "," ++ others)
                 end
             end
         end) items
  end.

(** Number::toString for the integers it prints digit by digit, those
    below 10^21 in magnitude: the printer of the example worlds. *)
Definition decimal (n : Z) : string := NilZero.string_of_int (Z.to_int n).

(** [`${x}`] for an [x] that is a string or undefined. *)
Definition text_of (x : option string) : string :=
  match x with
  | Some s => s
  | None => "undefined"
  end.

(** [name === 'literal']: strict equality against a string literal. *)
Definition strict_eq_str (v : value) (lit : string) : bool :=
  match v with
  | VStr s => s =? lit
  | _ => false
  end.

Infix "===" := strict_eq_str (at level 65, no associativity).

Definition TypeError_reading (of_what prop : string) : exn :=
  Error ("Cannot read properties of " ++ of_what ++ " (reading '" ++ prop ++ "')").

Fixpoint lookup (key : string) (fields : list (string * value)) : value :=
  match fields with
  | [] => VUndefined
  | (k, v) :: rest => if k =? key then v else lookup key rest
  end.

(** [obj.key]: a TypeError on [undefined] and [null], the field of an object
    ([undefined] when absent), [undefined] on every other value. *)
Definition get (obj : value) (key : string) : result value :=
  match obj with
  | VUndefined => Throw (TypeError_reading "undefined" key)
  | VNull => Throw (TypeError_reading "null" key)
  | VObj fields => Ok (lookup key fields)
  | _ => Ok VUndefined
  end.

(* ------------------------------------------------------------------ *)
(** ** The data of the three outside services *)

(** [createdAt]: the sentinel by which a writer asks the log to stamp the
    entry itself, or a concrete instant in milliseconds (what a stored entry
    holds, and what a writer supplies when it reads its own clock). *)
Inductive timestamp : Type :=
| ServerTimestamp
| DateOf (ms : Z).

(** A document of the collection 'chats'.  An absent [processed] is
    [VUndefined], an absent [relatedToMessageId] is [None]. *)
Module Message.
Record t : Type := Build {
  text : string;
  role : string;
  createdAt : timestamp;
  processed : value;
  relatedToMessageId : option string
}.
End Message.

(** One element of [snapshot.docChanges()]. *)
Module Change.
Inductive kind : Type := added | modified | removed.
Record t : Type := Build {
  type : kind;
  doc_id : string;
  doc_data : Message.t
}.
End Change.

(** The shapes of @google/genai that the agent reads and builds.  A field
    the SDK declares optional is an [option].  The SDK declares the name of
    a function call as an optional string; it is held as a [value], the
    type of what [===] compares it with. *)
Module FunctionCall.
Record t : Type := Build { name : value; args : value }.
End FunctionCall.

Module FunctionResponse.
Record t : Type := Build { name : value; response : value }.
End FunctionResponse.

Module Part.
Record t : Type := Build {
  text : option string;
  functionCall : option FunctionCall.t;
  functionResponse : option FunctionResponse.t
}.
End Part.

Module Content.
Record t : Type := Build { role : string; parts : option (list Part.t) }.
End Content.

Module Candidate.
Record t : Type := Build { content : option Content.t }.
End Candidate.

Module Response.
Record t : Type := Build {
  candidates : option (list Candidate.t);
  text : option string
}.
End Response.

(** The tool catalogue. *)
Module Schema.
Inductive Type_ : Type := OBJECT | STRING | NUMBER.
#[warnings="-register-all"]
Inductive t : Type :=
  Build (type : Type_) (description : string)
        (properties : list (string * t)) (required : list string).
Definition required_of (s : t) : list string :=
  match s with Build _ _ _ r => r end.
End Schema.

Module FunctionDeclaration.
Record t : Type := Build { name : string; parameters : Schema.t }.
End FunctionDeclaration.

Module Request.
Record config_t : Type := Config {
  systemInstruction : string;
  tools : option (list (list FunctionDeclaration.t))
}.
Record t : Type := Build {
  model : string;
  contents : list Content.t;
  config : config_t
}.
End Request.

Module AxiosResponse.
Record t : Type := Build { data : value }.
End AxiosResponse.

(* ------------------------------------------------------------------ *)
(** ** Events and the world *)

Inductive console_line : Type :=
| StartingListener
| ToolExecution (name args : value)
| ToolError (name : value) (msg : string)
| NewMessage (docId text : string)
| ReplySent
| ErrorGeneratingAIResponse (err : exn).

Inductive event : Type :=
| ConsoleLog (l : console_line)
| ConsoleError (l : console_line)
| DbUpdate (docId : string) (fields : list (string * value)) (r : result unit)
| DbAdd (d : Message.t) (r : result unit)
| GenerateContent (req : Request.t) (r : result Response.t)
| AxiosGet (url : string) (r : result AxiosResponse.t)
| AxiosPost (url : string) (body : value) (r : result AxiosResponse.t).

(** Everything outside the process.  Each service answers a request knowing
    the whole history, so the same request may be answered differently the
    second time. *)
Record World : Type := {
  API_URL : option string;         (* process.env.API_URL: a string, or undefined *)
  Number_toString : Z -> string;   (* how the engine prints a number *)
  clock : list event -> Z;
  firestore_update : list event -> string -> list (string * value) -> result unit;
  firestore_add : list event -> Message.t -> result unit;
  generateContent : list event -> Request.t -> result Response.t;
  http_get : list event -> string -> result AxiosResponse.t;
  http_post : list event -> string -> value -> result AxiosResponse.t
}.

(* ------------------------------------------------------------------ *)
(** ** The monad *)

(** A computation reads the history and returns its outcome with the events
    it emitted, oldest first. *)
Definition M (A : Type) : Type := list event -> result A * list event.

Definition M_ret {A} (a : A) : M A := fun _ => (Ok a, []).

Definition M_bind {A B} (m : M A) (k : A -> M B) : M B :=
  fun h =>
    let (r, es) := m h in
    match r with
    | Throw e => (Throw e, es)
    | Ok a => let (r', es') := k a (h ++ es)%list in (r', (es ++ es')%list)
    end.

Definition M_raise {A} (e : exn) : M A := fun _ => (Throw e, []).

Definition M_catch {A} (m : M A) (handler : exn -> M A) : M A :=
  fun h =>
    let (r, es) := m h in
    match r with
    | Ok a => (Ok a, es)
    | Throw e => let (r', es') := handler e (h ++ es)%list in (r', (es ++ es')%list)
    end.

#[global] Instance Monad_M : Monad M :=
  {| ret := @M_ret; bind := @M_bind |}.

#[global] Instance MonadExc_M : MonadExc exn M :=
  {| raise := @M_raise; catch := @M_catch |}.

(** A pure step that may throw. *)
Definition lift {A} (r : result A) : M A := fun _ => (r, []).

(** One call to an outside party: ask, record, return. *)
Definition outside_call {A} (ask : list event -> result A)
                (record : result A -> event) : M A :=
  fun h => let r := ask h in (r, [record r]).

Definition console_log (l : console_line) : M unit :=
  fun _ => (Ok tt, [ConsoleLog l]).

Definition console_error (l : console_line) : M unit :=
  fun _ => (Ok tt, [ConsoleError l]).

Section Agent.

Variable w : World.

Definition new_Date : M Z := fun h => (Ok (clock w h), []).

Definition db_update (docId : string) (fields : list (string * value)) : M unit :=
  outside_call (fun h => firestore_update w h docId fields) (DbUpdate docId fields).

Definition db_add (d : Message.t) : M unit :=
  outside_call (fun h => firestore_add w h d) (DbAdd d).

Definition ai_generateContent (req : Request.t) : M Response.t :=
  outside_call (fun h => generateContent w h req) (GenerateContent req).

Definition axios_get (url : string) : M AxiosResponse.t :=
  outside_call (fun h => http_get w h url) (AxiosGet url).

Definition axios_post (url : string) (body : value) : M AxiosResponse.t :=
  outside_call (fun h => http_post w h url body) (AxiosPost url body).

(* ---------------------------------------------------------------- *)
(** ** executeTool *)

Definition unknown_tool : value := VObj [("error", VStr "Unknown tool")].

Definition api_call_failed (msg : string) : value :=
  VObj [("error", VStr ("API Call Failed: " ++ msg))].

Definition executeTool (name args : value) : M value :=
  console_log (ToolExecution name args) ;;
  catch
    (if name === "check_tuition" then
       student_id <- lift (get args "student_id") ;;
       segment <- lift (ToString (Number_toString w) student_id) ;;
       response <- axios_get (text_of (API_URL w) ++ "/tuition/" ++ segment) ;;
       ret (AxiosResponse.data response)
     else if name === "pay_tuition" then
       student_id <- lift (get args "student_id") ;;
       amount <- lift (get args "amount") ;;
       response <- axios_post (text_of (API_URL w) ++ "/tuition/pay")
                              (VObj [("student_id", student_id); ("amount", amount)]) ;;
       ret (AxiosResponse.data response)
     else
       ret unknown_tool)
    (fun error =>
       console_error (ToolError name (message error)) ;;
       ret (api_call_failed (message error))).

(* ---------------------------------------------------------------- *)
(** ** The tool catalogue *)

Definition checkTuitionTool : FunctionDeclaration.t :=
  FunctionDeclaration.Build "check_tuition"
    (Schema.Build Schema.OBJECT
       "Check the outstanding tuition fee for a student."
       [("student_id",
         Schema.Build Schema.STRING "The ID of the student to check." [] [])]
       ["student_id"]).

Definition payTuitionTool : FunctionDeclaration.t :=
  FunctionDeclaration.Build "pay_tuition"
    (Schema.Build Schema.OBJECT
       "Process a tuition payment for a student."
       [("student_id",
         Schema.Build Schema.STRING "The ID of the student paying." [] []);
        ("amount",
         Schema.Build Schema.NUMBER "The amount to pay." [] [])]
       ["student_id"; "amount"]).

(* ---------------------------------------------------------------- *)
(** ** The listener: what runs for one element of [docChanges()] *)

Definition newline : string := String (ascii_of_nat 10) EmptyString.
Definition indent : string := "            ".

Definition systemInstruction : string :=
  "You are a helpful tuition assistant for a Tuition Centre. " ++ newline ++
  indent ++ "You can help check outstanding fees and process payments." ++ newline ++
  indent ++ "ALWAYS ask for the 'student_id' if it is not provided before using a tool." ++ newline ++
  indent ++ "Use the provided tools 'check_tuition' and 'pay_tuition' when necessary.".

Definition model_id : string := "gemini-2.5-flash-preview-09-2025".

Definition text_part (s : string) : Part.t :=
  Part.Build (Some s) None None.

Definition functionResponse_part (name result : value) : Part.t :=
  Part.Build None None
    (Some (FunctionResponse.Build name (VObj [("result", result)]))).

(** [{ role: 'user', parts: [{ text: messageData.text }] }] *)
Definition user_turn (text : string) : Content.t :=
  Content.Build "user" (Some [text_part text]).

Definition first_request (text : string) : Request.t :=
  Request.Build model_id
    [user_turn text]
    (Request.Config systemInstruction
                    (Some [[checkTuitionTool; payTuitionTool]])).

Definition second_request (text : string) (parts toolOutputs : list Part.t)
  : Request.t :=
  Request.Build model_id
    [user_turn text;
     Content.Build "model" (Some parts);
     Content.Build "function" (Some toolOutputs)]
    (Request.Config systemInstruction None).

(** [candidates && candidates[0].content && candidates[0].content.parts]:
    the parts when all three are there, [None] when the chain stops at a
    missing link, a TypeError when [candidates] is an empty array (then
    [candidates[0]] is [undefined] and [.content] is read from it). *)
Definition retrievable_parts (candidates : option (list Candidate.t))
  : result (option (list Part.t)) :=
  match candidates with
  | None => Ok None
  | Some [] => Throw (TypeError_reading "undefined" "content")
  | Some (first :: _) =>
      match Candidate.content first with
      | None => Ok None
      | Some content => Ok (Content.parts content)
      end
  end.

(** [parts.filter(part => part.functionCall).map(part => part.functionCall)] *)
Definition functionCalls_of (parts : list Part.t) : list FunctionCall.t :=
  flat_map (fun part =>
              match Part.functionCall part with
              | Some c => [c]
              | None => []
              end) parts.

(** [for (const call of functionCalls) { ... toolOutputs.push(...) }] *)
Fixpoint run_functionCalls (functionCalls : list FunctionCall.t)
                           (toolOutputs : list Part.t) : M (list Part.t) :=
  match functionCalls with
  | [] => ret toolOutputs
  | call :: rest =>
      result <- executeTool (FunctionCall.name call) (FunctionCall.args call) ;;
      run_functionCalls rest
        (toolOutputs ++ [functionResponse_part (FunctionCall.name call) result])%list
  end.

(** Step 4, "Handle Tool Calls": the value of [finalResponseText] when
    step 5 is reached.  It starts as the empty string; [undefined] is
    [None]. *)
Definition handle_tool_calls (text : string) (modelResponse : Response.t)
  : M (option string) :=
  let finalResponseText := Some "" in
  retrieved <- lift (retrievable_parts (Response.candidates modelResponse)) ;;
  match retrieved with
  | Some parts =>
      let functionCalls := functionCalls_of parts in
      if (0 <? length functionCalls)%nat then
        toolOutputs <- run_functionCalls functionCalls [] ;;
        secondResponse <- ai_generateContent (second_request text parts toolOutputs) ;;
        ret (Response.text secondResponse)
      else
        ret (Response.text modelResponse)
  | None => ret finalResponseText
  end.

(** [if (finalResponseText)]: the text when it is a non-empty string. *)
Definition truthy_text (finalResponseText : option string) : option string :=
  match finalResponseText with
  | Some s => if s =? "" then None else Some s
  | None => None
  end.

Definition reply_entry (finalResponseText : string) (now : Z) (docId : string)
  : Message.t :=
  Message.Build finalResponseText "model" (DateOf now) VUndefined (Some docId).

(** Step 5, "Write response to Firestore". *)
Definition write_response (docId : string) (finalResponseText : option string)
  : M unit :=
  match truthy_text finalResponseText with
  | Some t =>
      now <- new_Date ;;
      db_add (reply_entry t now docId) ;;
      console_log ReplySent
  | None => ret tt
  end.

Definition apology : string :=
  "I'm sorry, I encountered an error processing your request.".

Definition fallback_entry (now : Z) : Message.t :=
  Message.Build apology "model" (DateOf now) VUndefined None.

(** The body of [try { ... }]: steps 2 to 5. *)
Definition try_block (docId : string) (messageData : Message.t) : M unit :=
  modelResponse <- ai_generateContent (first_request (Message.text messageData)) ;;
  finalResponseText <- handle_tool_calls (Message.text messageData) modelResponse ;;
  write_response docId finalResponseText.

(** The body of [catch (err) { ... }]. *)
Definition catch_block (err : exn) : M unit :=
  console_error (ErrorGeneratingAIResponse err) ;;
  now <- new_Date ;;
  db_add (fallback_entry now).

(** [messageData.role === 'user' && !messageData.processed] *)
Definition unprocessed_user_message (messageData : Message.t) : bool :=
  (Message.role messageData =? "user") && negb (truthy (Message.processed messageData)).

(** The async callback that [forEach] starts for one change.  [Throw] is
    the rejection of the promise it returns. *)
Definition on_change (change : Change.t) : M unit :=
  match Change.type change with
  | Change.added =>
      let messageData := Change.doc_data change in
      let docId := Change.doc_id change in
      if unprocessed_user_message messageData then
        console_log (NewMessage docId (Message.text messageData)) ;;
        db_update docId [("processed", VBool true)] ;;
        catch (try_block docId messageData) catch_block
      else ret tt
  | _ => ret tt
  end.

(** [snapshot.docChanges().forEach(async (change) => ...)]: one task per
    change, none awaited. *)
Definition on_snapshot (docChanges : list Change.t) : list (M unit) :=
  map on_change docChanges.

(** Logs that it starts and subscribes [on_snapshot] to the collection. *)
Definition setupFirestoreListener : M (list Change.t -> list (M unit)) :=
  console_log StartingListener ;;
  ret on_snapshot.

End Agent.

(** From here on [++] is about traces. *)
Local Open Scope list_scope.

(* ------------------------------------------------------------------ *)
(** ** Reading a trace *)

Definition is_backend_call (e : event) : bool :=
  match e with
  | AxiosGet _ _ | AxiosPost _ _ _ => true
  | _ => false
  end.

(** The requests sent to the tuition backend, oldest first. *)
Definition backend_calls (es : list event) : list event :=
  filter is_backend_call es.

(** Every entry the agent asked the log to add, accepted or not. *)
Definition add_attempts (es : list event) : list Message.t :=
  flat_map (fun e => match e with DbAdd d _ => [d] | _ => [] end) es.

(** The entries the log accepted. *)
Definition appended (es : list event) : list Message.t :=
  flat_map (fun e => match e with DbAdd d (Ok _) => [d] | _ => [] end) es.

(** The requests sent to the model. *)
Definition model_requests (es : list event) : list Request.t :=
  flat_map (fun e => match e with GenerateContent req _ => [req] | _ => [] end) es.

Definition is_fallback (d : Message.t) : bool :=
  (Message.text d =? apology) &&
  match Message.relatedToMessageId d with None => true | Some _ => false end.

Definition model_calls_so_far (h : list event) : nat := length (model_requests h).

(** A scripted world for examples: the model answers [first] to the first
    request it sees and [second] to every later one; the backend and the
    log answer the same thing every time; the clock advances by one
    millisecond per event. *)
Definition scripted (api : option string) (first second : result Response.t)
                    (backend : result AxiosResponse.t)
                    (update add : result unit) : World :=
  {| API_URL := api;
     Number_toString := decimal;
     clock := fun h => (1700000000000 + Z.of_nat (length h))%Z;
     firestore_update := fun _ _ _ => update;
     firestore_add := fun _ _ => add;
     generateContent := fun h _ =>
       match model_calls_so_far h with O => first | _ => second end;
     http_get := fun _ _ => backend;
     http_post := fun _ _ _ => backend |}.

Definition user_message (text : string) : Change.t :=
  Change.Build Change.added "doc1"
    (Message.Build text "user" (DateOf 1699999999000) (VBool false) None).

Definition call_part (name : string) (args : list (string * value)) : Part.t :=
  Part.Build None (Some (FunctionCall.Build (VStr name) (VObj args))) None.

Definition response_of (parts : list Part.t) (text : option string) : Response.t :=
  Response.Build (Some [Candidate.Build (Some (Content.Build "model" (Some parts)))]) text.

Definition base : option string := Some "https://api.example".

Definition w_tool : World :=
  scripted base
    (Ok (response_of [call_part "check_tuition" [("student_id", VStr "S1")]] None))
    (Ok (response_of [text_part "You owe 100."] (Some "You owe 100.")))
    (Ok (AxiosResponse.Build (VObj [("balance", VNum 100)])))
    (Ok tt) (Ok tt).

Definition network_error : exn := Error "Network Error".

(** The model asks for a payment and the backend is unreachable. *)
Definition w_backend_down : World :=
  scripted base
    (Ok (response_of
           [call_part "pay_tuition" [("student_id", VStr "S1"); ("amount", VNum 50)]]
           None))
    (Ok (response_of [text_part "The payment did not go through."]
                     (Some "The payment did not go through.")))
    (Throw network_error)
    (Ok tt) (Ok tt).

Definition plain_answer (text : option string) : result Response.t :=
  Ok (response_of
        match text with Some t => [text_part t] | None => [] end
        text).

(** The model answers in words, without asking for a tool. *)
Definition w_plain (text : option string) : World :=
  scripted base (plain_answer text) (plain_answer text)
           (Ok (AxiosResponse.Build VNull)) (Ok tt) (Ok tt).

(** The model's first response carries no candidates at all. *)
Definition w_no_candidates : World :=
  scripted base (Ok (Response.Build None None)) (plain_answer None)
           (Ok (AxiosResponse.Build VNull)) (Ok tt) (Ok tt).

(** The model asks for a tool; its second response has no text. *)
Definition w_second_without_text : World :=
  scripted base
    (Ok (response_of [call_part "check_tuition" [("student_id", VStr "S1")]] None))
    (plain_answer None)
    (Ok (AxiosResponse.Build (VObj [("balance", VNum 100)])))
    (Ok tt) (Ok tt).

(** The model asks for a tool; its second response is the empty text. *)
Definition w_second_empty_text : World :=
  scripted base
    (Ok (response_of [call_part "check_tuition" [("student_id", VStr "S1")]] None))
    (plain_answer (Some ""))
    (Ok (AxiosResponse.Build (VObj [("balance", VNum 100)])))
    (Ok tt) (Ok tt).

(** The model is unreachable. *)
Definition w_model_down : World :=
  scripted base (Throw (Error "503 Service Unavailable"))
           (Throw (Error "503 Service Unavailable"))
           (Ok (AxiosResponse.Build VNull)) (Ok tt) (Ok tt).

(** The model asks for a tool in its first response and again in its
    second. *)
Definition w_asks_again : World :=
  scripted base
    (Ok (response_of [call_part "check_tuition" [("student_id", VStr "S1")]] None))
    (Ok (response_of [call_part "pay_tuition" [("student_id", VStr "S1"); ("amount", VNum 100)]]
                     None))
    (Ok (AxiosResponse.Build (VObj [("balance", VNum 100)])))
    (Ok tt) (Ok tt).

(** The log refuses the update of [processed]. *)
Definition w_flip_refused : World :=
  scripted base (plain_answer (Some "Hello!")) (plain_answer (Some "Hello!"))
           (Ok (AxiosResponse.Build VNull)) (Throw (Error "PERMISSION_DENIED")) (Ok tt).

(** The model answers in words and the log refuses every new entry. *)
Definition w_log_refuses : World :=
  scripted base (plain_answer (Some "Hello!")) (plain_answer (Some "Hello!"))
           (Ok (AxiosResponse.Build VNull)) (Ok tt) (Throw (Error "UNAVAILABLE")).


(* ------------------------------------------------------------------ *)
(** ** Vocabulary of the statements *)

Definition absent (key : string) (fields : list (string * value)) : Prop :=
  forall v, ~ In (key, v) fields.

(** A backend request that failed with [e], as it shows in a trace. *)
Definition backend_failure (ev : event) (e : exn) : Prop :=
  (exists url, ev = AxiosGet url (Throw e)) \/
  (exists url body, ev = AxiosPost url body (Throw e)).

(** The executor talks to the console and the backend, to nobody else. *)
Definition is_tool_event (e : event) : bool :=
  match e with
  | ConsoleLog _ | ConsoleError _ | AxiosGet _ _ | AxiosPost _ _ _ => true
  | _ => false
  end.

(** [tools_run w calls h outs es]: starting from history [h], the executor
    ran once for each call of [calls], one after the other in that order,
    each run seeing the events of the runs before it; [outs] holds one
    function-response part per call, tagged with the call's name, and [es]
    is everything the runs emitted. *)
Inductive tools_run (w : World)
  : list FunctionCall.t -> list event -> list Part.t -> list event -> Prop :=
| tools_run_nil h :
    tools_run w [] h [] []
| tools_run_cons call rest h result es outs es' :
    executeTool w (FunctionCall.name call) (FunctionCall.args call) h = (Ok result, es) ->
    tools_run w rest (h ++ es) outs es' ->
    tools_run w (call :: rest) h
      (functionResponse_part (FunctionCall.name call) result :: outs)
      (es ++ es').

(** The tags of the outputs are the names of the calls, in order. *)
Definition tag_of (out : Part.t) : option value :=
  option_map FunctionResponse.name (Part.functionResponse out).

(** The entry passes the filter of the listener. *)
Definition qualifies (change : Change.t) : Prop :=
  Change.type change = Change.added /\
  Message.role (Change.doc_data change) = "user" /\
  truthy (Message.processed (Change.doc_data change)) = false.

Definition processed_true : list (string * value) := [("processed", VBool true)].

(** The first events of a qualifying change. *)
Definition announced (change : Change.t) : event :=
  ConsoleLog (NewMessage (Change.doc_id change) (Message.text (Change.doc_data change))).

Definition flip (change : Change.t) (r : result unit) : event :=
  DbUpdate (Change.doc_id change) processed_true r.

Definition asked (change : Change.t) (r : result Response.t) : event :=
  GenerateContent (first_request (Message.text (Change.doc_data change))) r.

(** What the log answers to the flip, and the model to the first request. *)
Definition flip_outcome (w : World) (change : Change.t) (h : list event) : result unit :=
  firestore_update w (h ++ [announced change]) (Change.doc_id change) processed_true.

Definition after_flip (change : Change.t) (h : list event) : list event :=
  h ++ [announced change; flip change (Ok tt)].

Definition first_outcome (w : World) (change : Change.t) (h : list event)
  : result Response.t :=
  generateContent w (after_flip change h)
                  (first_request (Message.text (Change.doc_data change))).

Definition after_first (change : Change.t) (h : list event) (r : result Response.t)
  : list event :=
  h ++ [announced change; flip change (Ok tt); asked change r].

(** The first response has no retrievable content structure: [candidates]
    is missing, or the first candidate's [content] is, or that content's
    [parts]. *)
Inductive no_content_structure : Response.t -> Prop :=
| missing_candidates text :
    no_content_structure (Response.Build None text)
| missing_content rest text :
    no_content_structure (Response.Build (Some (Candidate.Build None :: rest)) text)
| missing_parts role rest text :
    no_content_structure
      (Response.Build
         (Some (Candidate.Build (Some (Content.Build role None)) :: rest)) text).

(** Every entry the trace [es] (emitted from history [h]) asks the log to
    add carries as [createdAt] the reading of the agent's own clock at the
    moment of the request. *)
Definition stamped_by_own_clock (w : World) (h es : list event) : Prop :=
  forall pre d r post,
    es = pre ++ DbAdd d r :: post ->
    Message.createdAt d = DateOf (clock w (h ++ pre)).

(* ------------------------------------------------------------------ *)
(** ** More ways to read a trace *)

(** A backend request that was answered with [response]. *)
Definition backend_success (ev : event) (response : AxiosResponse.t) : Prop :=
  (exists url, ev = AxiosGet url (Ok response)) \/
  (exists url body, ev = AxiosPost url body (Ok response)).

(** The document updates the agent asked for: which entry, which fields. *)
Definition updates (es : list event) : list (string * list (string * value)) :=
  flat_map (fun e => match e with DbUpdate docId fields _ => [(docId, fields)] | _ => [] end) es.

Definition is_console_error (e : event) : bool :=
  match e with ConsoleError _ => true | _ => false end.

(** The function calls of a first response, none when it has no parts. *)
Definition requested_calls (modelResponse : Response.t) : list FunctionCall.t :=
  match retrievable_parts (Response.candidates modelResponse) with
  | Ok (Some parts) => functionCalls_of parts
  | _ => []
  end.

(** The declarations a request offers to the model. *)
Definition advertised (req : Request.t) : list FunctionDeclaration.t :=
  match Request.tools (Request.config req) with
  | Some tools => concat tools
  | None => []
  end.

(** The footprint of a try block that ended with [r] after emitting [es]:
    [bound] is the number of function calls the first response asked for. *)
Record try_footprint (bound : nat) (r : result unit) (es : list event) : Prop := {
  tf_backend : length (backend_calls es) <= bound;
  tf_updates : updates es = [];
  tf_models : 1 <= length (model_requests es) <= 2;
  tf_attempts : length (add_attempts es) <= 1;
  tf_appended : length (appended es) <= 1;
  tf_thrown : forall e, r = Throw e -> appended es = [];
  tf_roles : Forall (fun d => Message.role d = "model") (add_attempts es)
}.

(** The number of function calls in what the model answered first. *)
Definition calls_asked (r : result Response.t) : nat :=
  match r with
  | Ok modelResponse => length (requested_calls modelResponse)
  | Throw _ => 0
  end.

(** [executor_runs w calls h results es]: from history [h] the executor ran
    once for each call of [calls], one run after the other in the order of
    the list, each run seeing the events of the runs before it; [results]
    are the values the runs returned, in that order, and [es] is everything
    they emitted, in that order. *)
Inductive executor_runs (w : World)
  : list FunctionCall.t -> list event -> list value -> list event -> Prop :=
| executor_runs_nil h :
    executor_runs w [] h [] []
| executor_runs_cons call rest h result es results es' :
    executeTool w (FunctionCall.name call) (FunctionCall.args call) h = (Ok result, es) ->
    executor_runs w rest (h ++ es) results es' ->
    executor_runs w (call :: rest) h (result :: results) (es ++ es').

(** The model asks for two tools in one response, with a remark between
    them; the backend gives the same answer to both. *)
Definition w_two_tools : World :=
  scripted base
    (Ok (response_of
           [call_part "check_tuition" [("student_id", VStr "S1")];
            text_part "Then I pay.";
            call_part "pay_tuition" [("student_id", VStr "S1"); ("amount", VNum 50)]]
           (Some "Then I pay.")))
    (Ok (response_of [text_part "Paid."] (Some "Paid.")))
    (Ok (AxiosResponse.Build (VObj [("balance", VNum 100)])))
    (Ok tt) (Ok tt).

(* ------------------------------------------------------------------ *)
(** ** Startup: the top level of agent.js *)

Module Boot.

(** The Node process and the library calls of the top level.  [env] is
    [process.env] once [dotenv.config()] has run.  [listen] is whether the
    port could be bound, and [listen_error_reaches_callback] what the
    installed Express does with the error when it could not: it hands it to
    the callback of [app.listen], or it emits it on the server, where
    nothing catches it. *)
Record Runtime : Type := {
  env : string -> option string;
  JSON_parse : string -> result value;
  initializeApp : value -> result unit;
  getFirestore : result unit;
  GoogleGenAI : value -> result unit;
  listen : value -> result unit;
  listen_error_reaches_callback : bool
}.

(** [DotenvConfig] is the call [dotenv.config()] with whatever it prints. *)
Inductive step : Type :=
| DotenvConfig
| Stderr (msg : string)
| Stdout (msg : string)
| Exit (code : Z)
| JsonParse (text : string) (r : result value)
| InitializeApp (serviceAccount : value) (r : result unit)
| GetFirestore (r : result unit)
| NewGoogleGenAI (apiKey : value) (r : result unit)
| Express
| AppGet (path : string)
| AppListen (port : value) (r : result unit)
| Agent (e : event)
| OnSnapshot (collection : string).

(** [process.env.NAME] *)
Definition process_env (rt : Runtime) (name : string) : value :=
  match env rt name with
  | Some s => VStr s
  | None => VUndefined
  end.

(** [a || b] *)
Definition js_or (a b : value) : value := if truthy a then a else b.

(** The world the agent's functions run in: the services as given, the
    backend's base URL as read from the environment. *)
Definition agent_world (rt : Runtime) (services : World) : World :=
  {| API_URL := env rt "API_URL";
     Number_toString := Number_toString services;
     clock := clock services;
     firestore_update := firestore_update services;
     firestore_add := firestore_add services;
     generateContent := generateContent services;
     http_get := http_get services;
     http_post := http_post services |}.

(** The three constants the top level reads from the environment. *)
Record Config : Type := {
  PORT : value;
  API_URL : value;
  GEMINI_API_KEY : value
}.

(** How the top level ends: [process.exit] was called; an exception was
    left uncaught (Node prints it and ends the process, with exit code 1 as
    well); or the callback of [app.listen] has run and the listener is
    subscribed. *)
Inductive outcome : Type :=
| Exited (code : Z)
| Crashed (e : exn)
| Running (config : Config).

(** One library call of the top level: an exception is uncaught. *)
Definition attempt {A} (r : result A) (record : result A -> step)
           (k : A -> outcome * list step) : outcome * list step :=
  match r with
  | Ok a => let (o, steps) := k a in (o, record r :: steps)
  | Throw e => (Crashed e, [record r])
  end.

(** The callback given to [app.listen]; it takes no argument. *)
Definition listen_callback (rt : Runtime) (services : World) (config : Config)
  : outcome * list step :=
  match ToString (Number_toString services) (PORT config) with
  | Ok shown =>
      (Running config,
       (Stdout ("Agent server listening on port " ++ shown)%string
        :: map Agent (snd (setupFirestoreListener (agent_world rt services) []))
        ++ [OnSnapshot "chats"])%list)
  | Throw e => (Crashed e, [])
  end.

Definition main (rt : Runtime) (services : World) : outcome * list step :=
  let PORT := js_or (process_env rt "PORT") (VNum 3000) in
  let API_URL := process_env rt "API_URL" in
  let GEMINI_API_KEY := process_env rt "GEMINI_API_KEY" in
  let (o, steps) :=
    if negb (truthy (process_env rt "FIREBASE_SERVICE_ACCOUNT")) then
      (Exited 1,
       [Stderr "Missing FIREBASE_SERVICE_ACCOUNT environment variable."; Exit 1])
    else
      attempt (JSON_parse rt (text_of (env rt "FIREBASE_SERVICE_ACCOUNT")))
              (JsonParse (text_of (env rt "FIREBASE_SERVICE_ACCOUNT")))
        (fun serviceAccount =>
      attempt (initializeApp rt serviceAccount) (InitializeApp serviceAccount)
        (fun _ =>
      attempt (getFirestore rt) GetFirestore
        (fun _ =>
      attempt (GoogleGenAI rt GEMINI_API_KEY) (NewGoogleGenAI GEMINI_API_KEY)
        (fun _ =>
      let config :=
        {| PORT := PORT; API_URL := API_URL; GEMINI_API_KEY := GEMINI_API_KEY |} in
      let (o, steps) :=
        match listen rt PORT with
        | Ok _ as r =>
            let (o, steps) := listen_callback rt services config in
            (o, AppListen PORT r :: steps)
        | Throw e as r =>
            if listen_error_reaches_callback rt then
              let (o, steps) := listen_callback rt services config in
              (o, AppListen PORT r :: steps)
            else (Crashed e, [AppListen PORT r])
        end in
      (o, Express :: AppGet "/" :: steps))))) in
  (o, DotenvConfig :: steps).

Definition is_subscription (s : step) : bool :=
  match s with OnSnapshot _ => true | _ => false end.

(** The steps that do something beyond reading the environment and
    printing: every library call after [dotenv.config()]. *)
Definition is_library_call (s : step) : bool :=
  match s with
  | DotenvConfig | Stderr _ | Stdout _ | Exit _ => false
  | _ => true
  end.

(** An environment given as a list of bindings. *)
Fixpoint env_of (bindings : list (string * string)) (name : string) : option string :=
  match bindings with
  | [] => None
  | (k, v) :: rest => if k =? name then Some v else env_of rest name
  end.

(** A runtime in which every library call succeeds. *)
Definition healthy (bindings : list (string * string)) : Runtime :=
  {| env := env_of bindings;
     JSON_parse := fun _ => Ok (VObj [("project_id", VStr "tuition")]);
     initializeApp := fun _ => Ok tt;
     getFirestore := Ok tt;
     GoogleGenAI := fun _ => Ok tt;
     listen := fun _ => Ok tt;
     listen_error_reaches_callback := false |}.

(** A runtime whose port is taken and whose Express hands the error to the
    callback. *)
Definition port_taken (bindings : list (string * string)) : Runtime :=
  {| env := env_of bindings;
     JSON_parse := fun _ => Ok (VObj [("project_id", VStr "tuition")]);
     initializeApp := fun _ => Ok tt;
     getFirestore := Ok tt;
     GoogleGenAI := fun _ => Ok tt;
     listen := fun _ => Throw (Error "listen EADDRINUSE: address already in use");
     listen_error_reaches_callback := true |}.

End Boot.

(* ------------------------------------------------------------------ *)
(** ** The front end: the handlers of App *)

Module Client.

(** The browser side: [String.prototype.trim] and the log's [addDoc]. *)
Record Browser : Type := {
  trim : string -> string;
  addDoc : string -> Message.t -> result unit
}.

Inductive action : Type :=
| PreventDefault
| SetNewMessage (s : string)
| SetLoading (b : bool)
| SetMessages (msgs : list (string * Message.t))
| AddDoc (collection : string) (d : Message.t) (r : result unit)
| ConsoleError (e : exn).

(** [CollectionNames.CHATS] *)
Definition CHATS : string := "chats".

Definition handleSendMessage (b : Browser) (newMessage : string) : list action :=
  PreventDefault ::
  if trim b newMessage =? "" then []
  else
    let text := newMessage in
    let d := Message.Build text "user" ServerTimestamp (VBool false) None in
    let r := addDoc b CHATS d in
    SetNewMessage "" :: SetLoading true :: AddDoc CHATS d r ::
    match r with
    | Ok _ => []
    | Throw e => [ConsoleError e; SetLoading false]
    end.

(** The callback of the ordered query's [onSnapshot]: each document with its
    id. *)
Definition on_messages (docs : list (string * Message.t)) : list action :=
  [SetMessages docs; SetLoading false].

(** The component's state and what the setters do to it. *)
Record State : Type := {
  messages : list (string * Message.t);
  newMessage : string;
  loading : bool
}.

Definition apply (s : State) (a : action) : State :=
  match a with
  | SetNewMessage v => {| messages := messages s; newMessage := v; loading := loading s |}
  | SetLoading v => {| messages := messages s; newMessage := newMessage s; loading := v |}
  | SetMessages v => {| messages := v; newMessage := newMessage s; loading := loading s |}
  | PreventDefault | AddDoc _ _ _ | ConsoleError _ => s
  end.

(** The form is submitted in state [s]. *)
Definition submit (b : Browser) (s : State) : State * list action :=
  let actions := handleSendMessage b (newMessage s) in
  (fold_left apply actions s, actions).

(** [disabled={loading || !newMessage.trim()}] of the send button. *)
Definition send_disabled (b : Browser) (s : State) : bool :=
  loading s || (trim b (newMessage s) =? "").

(** What the form wrote to the log. *)
Definition written (actions : list action) : list (string * Message.t) :=
  flat_map (fun a => match a with AddDoc c d _ => [(c, d)] | _ => [] end) actions.

(** A browser for examples: [trim] strips spaces at both ends. *)
Fixpoint drop_spaces (s : string) : string :=
  match s with
  | String " " rest => drop_spaces rest
  | _ => s
  end.

Fixpoint rev_string (s acc : string) : string :=
  match s with
  | EmptyString => acc
  | String c rest => rev_string rest (String c acc)
  end.

Definition trim_spaces (s : string) : string :=
  rev_string (drop_spaces (rev_string (drop_spaces s) "")) "".

Definition browser (log : result unit) : Browser :=
  {| trim := trim_spaces; addDoc := fun _ _ => log |}.

End Client.

(* ------------------------------------------------------------------ *)
(** ** The monad's equations *)

Lemma bind_eq {A B} (m : M A) (k : A -> M B) (h : list event) :
  bind m k h =
  match m h with
  | (Ok a, es) => let (r, es') := k a (h ++ es)%list in (r, (es ++ es')%list)
  | (Throw e, es) => (Throw e, es)
  end.
Proof. cbn. unfold M_bind. destruct (m h) as [[a | e] es]; reflexivity. Qed.

Lemma catch_eq {A} (m : M A) (handler : exn -> M A) (h : list event) :
  catch m handler h =
  match m h with
  | (Ok a, es) => (Ok a, es)
  | (Throw e, es) => let (r, es') := handler e (h ++ es)%list in (r, (es ++ es')%list)
  end.
Proof. cbn. unfold M_catch. destruct (m h) as [[a | e] es]; reflexivity. Qed.

Ltac tidy := cbn; rewrite ?app_nil_r, <- ?app_assoc; cbn.

(* ------------------------------------------------------------------ *)
(** ** executeTool, case by case *)

Section ExecuteTool.

Variable w : World.
Variables (args : value) (h : list event).

Let started (name : value) : event := ConsoleLog (ToolExecution name args).

Lemma executeTool_check_tuition :
  executeTool w (VStr "check_tuition") args h =
  let name := VStr "check_tuition" in
  let thrown (e : exn) :=
    (Ok (api_call_failed (message e)),
     [started name; ConsoleError (ToolError name (message e))]) in
  match get args "student_id" with
  | Throw e => thrown e
  | Ok student_id =>
      match ToString (Number_toString w) student_id with
      | Throw e => thrown e
      | Ok segment =>
          let url := (text_of (API_URL w) ++ "/tuition/" ++ segment)%string in
          match http_get w (h ++ [started name]) url with
          | Ok response as r =>
              (Ok (AxiosResponse.data response), [started name; AxiosGet url r])
          | Throw e as r =>
              (Ok (api_call_failed (message e)),
               [started name; AxiosGet url r;
                ConsoleError (ToolError name (message e))])
          end
      end
  end.
Proof.
  unfold executeTool, started.
  cbn. unfold M_bind, M_catch, console_log, lift, axios_get, outside_call. cbn.
  destruct (get args "student_id") as [student_id | e]; tidy; [|reflexivity].
  destruct (ToString (Number_toString w) student_id) as [segment | e]; tidy;
    [|reflexivity].
  destruct (http_get w _ _) as [response | e]; reflexivity.
Qed.

Lemma executeTool_pay_tuition :
  executeTool w (VStr "pay_tuition") args h =
  let name := VStr "pay_tuition" in
  let thrown (e : exn) (before : list event) :=
    (Ok (api_call_failed (message e)),
     (started name :: before ++ [ConsoleError (ToolError name (message e))])%list) in
  match get args "student_id" with
  | Throw e => thrown e []
  | Ok student_id =>
      match get args "amount" with
      | Throw e => thrown e []
      | Ok amount =>
          let url := (text_of (API_URL w) ++ "/tuition/pay")%string in
          let body := VObj [("student_id", student_id); ("amount", amount)] in
          match http_post w (h ++ [started name]) url body with
          | Ok response as r =>
              (Ok (AxiosResponse.data response), [started name; AxiosPost url body r])
          | Throw e as r => thrown e [AxiosPost url body r]
          end
      end
  end.
Proof.
  unfold executeTool, started.
  cbn. unfold M_bind, M_catch, console_log, lift, axios_post, outside_call. cbn.
  destruct (get args "student_id") as [student_id | e]; tidy; [|reflexivity].
  destruct (get args "amount") as [amount | e]; tidy; [|reflexivity].
  destruct (http_post w _ _ _) as [response | e]; reflexivity.
Qed.

Lemma executeTool_other (name : value) :
  name === "check_tuition" = false ->
  name === "pay_tuition" = false ->
  executeTool w name args h = (Ok unknown_tool, [started name]).
Proof.
  intros Hcheck Hpay. unfold executeTool, started.
  cbn. unfold M_bind, M_catch, console_log. cbn.
  rewrite Hcheck, Hpay. reflexivity.
Qed.

End ExecuteTool.

Lemma strict_eq_str_true (v : value) (lit : string) :
  v === lit = true <-> v = VStr lit.
Proof.
  split.
  - destruct v; cbn; try discriminate.
    intros E. apply String.eqb_eq in E. now subst.
  - intros ->. cbn. apply String.eqb_refl.
Qed.

Lemma strict_eq_str_false (v : value) (lit : string) :
  v === lit = false <-> v <> VStr lit.
Proof.
  rewrite <- strict_eq_str_true. destruct (v === lit); split; congruence.
Qed.

(** The three ways a tool name can go. *)
Lemma name_cases (name : value) :
  name = VStr "check_tuition" \/ name = VStr "pay_tuition" \/
  (name === "check_tuition" = false /\ name === "pay_tuition" = false).
Proof.
  destruct (name === "check_tuition") eqn:Hc.
  - left. now apply strict_eq_str_true.
  - destruct (name === "pay_tuition") eqn:Hp.
    + right; left. now apply strict_eq_str_true.
    + right; right. split; reflexivity.
Qed.

(** [get] on an object never throws. *)
Lemma get_object (fields : list (string * value)) (key : string) :
  get (VObj fields) key = Ok (lookup key fields).
Proof. reflexivity. Qed.

Lemma lookup_absent (key : string) (fields : list (string * value)) :
  absent key fields -> lookup key fields = VUndefined.
Proof.
  unfold absent. induction fields as [| [k v] rest IH]; intros Habs; cbn.
  - reflexivity.
  - destruct (String.eqb_spec k key) as [-> | _].
    + exfalso. apply (Habs v). now left.
    + apply IH. intros v' Hin. apply (Habs v'). now right.
Qed.

(** The executor's [try ... catch] leaves nothing to propagate. *)
Lemma executeTool_returns (w : World) (name args : value) (h : list event) :
  exists v, fst (executeTool w name args h) = Ok v.
Proof.
  destruct (name_cases name) as [-> | [-> | [Hc Hp]]].
  - rewrite executeTool_check_tuition. cbn zeta.
    destruct (get args "student_id"); cbn; [|eauto].
    destruct (ToString _ _); cbn; [|eauto].
    destruct (http_get w _ _); cbn; eauto.
  - rewrite executeTool_pay_tuition. cbn.
    destruct (get args "student_id"); cbn; [|eauto].
    destruct (get args "amount"); cbn; [|eauto].
    destruct (http_post w _ _ _); cbn; eauto.
  - rewrite executeTool_other by assumption. cbn. eauto.
Qed.

Ltac no_such_event :=
  repeat match goal with
         | H : _ \/ _ |- _ => destruct H
         | H : False |- _ => destruct H
         | H : exists _, _ |- _ => destruct H
         | H : _ = _ |- _ => discriminate H
         end.

Lemma executeTool_failure (w : World) (name args : value) (h : list event)
      (ev : event) (e : exn) :
  In ev (snd (executeTool w name args h)) ->
  backend_failure ev e ->
  fst (executeTool w name args h) = Ok (api_call_failed (message e)).
Proof.
  unfold backend_failure.
  destruct (name_cases name) as [-> | [-> | [Hc Hp]]].
  - rewrite executeTool_check_tuition. cbn zeta.
    destruct (get args "student_id"); cbn.
    + destruct (ToString _ _); cbn.
      * destruct (http_get w _ _) eqn:Hget; cbn; intros Hin Hfail.
        -- destruct Hin as [<- | [<- | []]]; no_such_event.
        -- destruct Hin as [<- | [<- | [<- | []]]]; no_such_event.
           congruence.
      * intros Hin Hfail. destruct Hin as [<- | [<- | []]]; no_such_event.
    + intros Hin Hfail. destruct Hin as [<- | [<- | []]]; no_such_event.
  - rewrite executeTool_pay_tuition. cbn.
    destruct (get args "student_id"); cbn.
    + destruct (get args "amount"); cbn.
      * destruct (http_post w _ _ _) eqn:Hpost; cbn; intros Hin Hfail.
        -- destruct Hin as [<- | [<- | []]]; no_such_event.
        -- destruct Hin as [<- | [<- | [<- | []]]]; no_such_event.
           congruence.
      * intros Hin Hfail. destruct Hin as [<- | [<- | []]]; no_such_event.
    + intros Hin Hfail. destruct Hin as [<- | [<- | []]]; no_such_event.
  - rewrite executeTool_other by assumption. cbn.
    intros [<- | []] Hfail. no_such_event.
Qed.

Lemma executeTool_events (w : World) (name args : value) (h : list event) :
  forallb is_tool_event (snd (executeTool w name args h)) = true.
Proof.
  destruct (name_cases name) as [-> | [-> | [Hc Hp]]].
  - rewrite executeTool_check_tuition. cbn zeta.
    destruct (get args "student_id"); cbn; [|reflexivity].
    destruct (ToString _ _); cbn; [|reflexivity].
    destruct (http_get w _ _); reflexivity.
  - rewrite executeTool_pay_tuition. cbn.
    destruct (get args "student_id"); cbn; [|reflexivity].
    destruct (get args "amount"); cbn; [|reflexivity].
    destruct (http_post w _ _ _); reflexivity.
  - rewrite executeTool_other by assumption. reflexivity.
Qed.

(* ------------------------------------------------------------------ *)
(** ** The tool loop *)

Lemma run_functionCalls_spec (w : World) (calls : list FunctionCall.t) :
  forall (acc : list Part.t) (h : list event),
  exists outs es,
    tools_run w calls h outs es /\
    run_functionCalls w calls acc h = (Ok (acc ++ outs)%list, es).
Proof.
  induction calls as [| call rest IH]; intros acc h.
  - exists [], []. split; [constructor|]. cbn. unfold M_ret. now rewrite app_nil_r.
  - cbn [run_functionCalls]. rewrite bind_eq.
    destruct (executeTool_returns w (FunctionCall.name call) (FunctionCall.args call) h)
      as [result Hres].
    destruct (executeTool w _ _ h) as [r es] eqn:Hexec. cbn in Hres. subst r.
    destruct (IH (acc ++ [functionResponse_part (FunctionCall.name call) result])%list
                 (h ++ es)%list) as (outs & es' & Hrun & Heq).
    rewrite Heq. eexists _, _. split.
    + econstructor; eassumption.
    + now rewrite <- app_assoc.
Qed.

Lemma tools_run_length (w : World) calls h outs es :
  tools_run w calls h outs es -> length outs = length calls.
Proof. induction 1; cbn; congruence. Qed.

Lemma tools_run_tags (w : World) calls h outs es :
  tools_run w calls h outs es ->
  map tag_of outs = map (fun call => Some (FunctionCall.name call)) calls.
Proof. induction 1; cbn; congruence. Qed.

Lemma tools_run_events (w : World) calls h outs es :
  tools_run w calls h outs es -> forallb is_tool_event es = true.
Proof.
  induction 1 as [| call rest h result es outs es' Hexec _ IH]; [reflexivity|].
  rewrite forallb_app, IH, andb_true_r.
  pose proof (executeTool_events w (FunctionCall.name call) (FunctionCall.args call) h) as Hev.
  now rewrite Hexec in Hev.
Qed.

(** A backend failure during the loop ends up in the outputs as data. *)
Lemma tools_run_failure (w : World) calls h outs es :
  tools_run w calls h outs es ->
  forall ev e, In ev es -> backend_failure ev e ->
  exists name, In (functionResponse_part name (api_call_failed (message e))) outs.
Proof.
  induction 1 as [| call rest h result es outs es' Hexec _ IH]; intros ev e Hin Hfail.
  - destruct Hin.
  - apply in_app_or in Hin. destruct Hin as [Hin | Hin].
    + exists (FunctionCall.name call). left.
      pose proof (@executeTool_failure w (FunctionCall.name call)
                    (FunctionCall.args call) h ev e) as Hf.
      rewrite Hexec in Hf. cbn in Hf. specialize (Hf Hin Hfail).
      congruence.
    + destruct (IH ev e Hin Hfail) as [name Hname]. exists name. now right.
Qed.

Lemma tool_events_add_nothing (es : list event) :
  forallb is_tool_event es = true ->
  add_attempts es = [] /\ model_requests es = [].
Proof.
  induction es as [| e es IH]; cbn; [auto|].
  intros H. apply andb_true_iff in H. destruct H as [He Hes].
  destruct (IH Hes) as [IHa IHm].
  destruct e; cbn in *; try discriminate; auto.
Qed.

(* ------------------------------------------------------------------ *)
(** ** Steps 4 and 5 and the catch block *)

Section Steps.

Variable w : World.
Variables (text docId : string) (h : list event).

Lemma handle_tool_calls_with_calls (modelResponse : Response.t) (parts : list Part.t) :
  retrievable_parts (Response.candidates modelResponse) = Ok (Some parts) ->
  functionCalls_of parts <> [] ->
  exists outs tes,
    tools_run w (functionCalls_of parts) h outs tes /\
    handle_tool_calls w text modelResponse h =
    let req := second_request text parts outs in
    let r := generateContent w (h ++ tes) req in
    (match r with
     | Ok secondResponse => Ok (Response.text secondResponse)
     | Throw e => Throw e
     end,
     (tes ++ [GenerateContent req r])%list).
Proof.
  intros Hparts Hcalls. unfold handle_tool_calls.
  rewrite bind_eq. unfold lift at 1. rewrite Hparts.
  destruct (functionCalls_of parts) as [| call rest] eqn:Hfc; [congruence|].
  change (0 <? length (call :: rest))%nat with true. cbv iota.
  rewrite app_nil_r.
  destruct (run_functionCalls_spec w (call :: rest) [] h) as (outs & tes & Hrun & Heq).
  exists outs, tes. split; [assumption|].
  rewrite bind_eq, Heq. cbn [app].
  rewrite bind_eq. unfold ai_generateContent at 1, outside_call.
  destruct (generateContent w _ _); tidy; reflexivity.
Qed.

Lemma handle_tool_calls_without_calls (modelResponse : Response.t) (parts : list Part.t) :
  retrievable_parts (Response.candidates modelResponse) = Ok (Some parts) ->
  functionCalls_of parts = [] ->
  handle_tool_calls w text modelResponse h = (Ok (Response.text modelResponse), []).
Proof.
  intros Hparts Hcalls. unfold handle_tool_calls.
  rewrite bind_eq. unfold lift at 1. rewrite Hparts, Hcalls. reflexivity.
Qed.

Lemma handle_tool_calls_without_parts (modelResponse : Response.t) :
  retrievable_parts (Response.candidates modelResponse) = Ok None ->
  handle_tool_calls w text modelResponse h = (Ok (Some ""), []).
Proof.
  intros Hparts. unfold handle_tool_calls.
  rewrite bind_eq. unfold lift at 1. rewrite Hparts. reflexivity.
Qed.

Lemma handle_tool_calls_type_error (modelResponse : Response.t) (e : exn) :
  retrievable_parts (Response.candidates modelResponse) = Throw e ->
  handle_tool_calls w text modelResponse h = (Throw e, []).
Proof.
  intros Hparts. unfold handle_tool_calls.
  rewrite bind_eq. unfold lift at 1. rewrite Hparts. reflexivity.
Qed.

Lemma write_response_truthy (finalResponseText : option string) (t : string) :
  truthy_text finalResponseText = Some t ->
  write_response w docId finalResponseText h =
  let d := reply_entry t (clock w h) docId in
  match firestore_add w h d with
  | Ok _ as r => (Ok tt, [DbAdd d r; ConsoleLog ReplySent])
  | Throw e as r => (Throw e, [DbAdd d r])
  end.
Proof.
  intros Ht. unfold write_response. rewrite Ht.
  cbn. unfold M_bind, new_Date, db_add, outside_call, console_log. tidy.
  destruct (firestore_add w h _) as [[] | e]; reflexivity.
Qed.

Lemma write_response_falsy (finalResponseText : option string) :
  truthy_text finalResponseText = None ->
  write_response w docId finalResponseText h = (Ok tt, []).
Proof. intros Ht. unfold write_response. now rewrite Ht. Qed.

Lemma catch_block_eq (err : exn) :
  catch_block w err h =
  let said := ConsoleError (ErrorGeneratingAIResponse err) in
  let d := fallback_entry (clock w (h ++ [said])) in
  let r := firestore_add w (h ++ [said]) d in
  (r, [said; DbAdd d r]).
Proof.
  unfold catch_block. cbn. unfold M_bind, new_Date, db_add, outside_call, console_error. tidy.
  destruct (firestore_add w _ _); reflexivity.
Qed.

End Steps.

(* ------------------------------------------------------------------ *)
(** ** One change, step by step *)

Section OneChange.

Variable w : World.
Variables (change : Change.t) (h : list event).

Let messageData := Change.doc_data change.
Let docId := Change.doc_id change.

Lemma qualifies_filter :
  qualifies change ->
  Change.type change = Change.added /\ unprocessed_user_message messageData = true.
Proof.
  intros (Hadded & Hrole & Hproc). split; [assumption|].
  unfold unprocessed_user_message, messageData.
  rewrite Hrole, Hproc. reflexivity.
Qed.

Lemma on_change_ignored :
  ~ qualifies change -> on_change w change h = (Ok tt, []).
Proof.
  intros Hnot. unfold on_change.
  destruct (Change.type change) eqn:Htype; try reflexivity.
  destruct (unprocessed_user_message (Change.doc_data change)) eqn:Hf; [|reflexivity].
  exfalso. apply Hnot. unfold unprocessed_user_message in Hf.
  apply andb_true_iff in Hf. destruct Hf as [Hrole Hproc].
  apply String.eqb_eq in Hrole. apply negb_true_iff in Hproc.
  repeat split; assumption.
Qed.

Lemma on_change_flip_rejected (e : exn) :
  qualifies change ->
  flip_outcome w change h = Throw e ->
  on_change w change h = (Throw e, [announced change; flip change (Throw e)]).
Proof.
  intros Hq Hflip. destruct (qualifies_filter Hq) as [Hadded Hfilter].
  unfold on_change. subst messageData. rewrite Hadded, Hfilter.
  cbn. unfold M_bind, console_log, db_update, outside_call. cbn.
  unfold flip_outcome, announced, processed_true in Hflip. rewrite Hflip.
  reflexivity.
Qed.

Lemma on_change_flipped :
  qualifies change ->
  flip_outcome w change h = Ok tt ->
  on_change w change h =
  let (r, es) := catch (try_block w docId messageData) (catch_block w)
                       (after_flip change h) in
  (r, announced change :: flip change (Ok tt) :: es).
Proof.
  intros Hq Hflip. destruct (qualifies_filter Hq) as [Hadded Hfilter].
  unfold on_change. subst messageData. rewrite Hadded, Hfilter.
  cbn. unfold M_bind, console_log, db_update, outside_call. cbn.
  unfold flip_outcome, announced, processed_true in Hflip. rewrite Hflip.
  rewrite <- app_assoc. cbn.
  unfold after_flip, announced, flip, processed_true, docId.
  destruct (M_catch _ _ _). reflexivity.
Qed.

(** The try block: the first request, then step 4, then step 5. *)
Lemma try_block_eq (h2 : list event) :
  try_block w docId messageData h2 =
  let req := first_request (Message.text messageData) in
  match generateContent w h2 req with
  | Throw e as r => (Throw e, [GenerateContent req r])
  | Ok modelResponse as r =>
      let (r4, es4) := handle_tool_calls w (Message.text messageData) modelResponse
                         (h2 ++ [GenerateContent req r]) in
      match r4 with
      | Throw e => (Throw e, GenerateContent req r :: es4)
      | Ok finalResponseText =>
          let (r5, es5) := write_response w docId finalResponseText
                             (h2 ++ GenerateContent req r :: es4) in
          (r5, GenerateContent req r :: (es4 ++ es5)%list)
      end
  end.
Proof.
  unfold try_block. rewrite bind_eq.
  unfold ai_generateContent at 1, outside_call.
  destruct (generateContent w h2 _) as [modelResponse | e]; [|reflexivity].
  rewrite bind_eq.
  destruct (handle_tool_calls w _ _ _) as [[finalResponseText | e] es4]; [|reflexivity].
  rewrite <- app_assoc. cbn [app].
  destruct (write_response w _ _ _). reflexivity.
Qed.

End OneChange.

(* ------------------------------------------------------------------ *)
(** ** What reaches the log *)

Lemma add_attempts_app (es es' : list event) :
  add_attempts (es ++ es') = add_attempts es ++ add_attempts es'.
Proof. apply flat_map_app. Qed.

Lemma appended_app (es es' : list event) :
  appended (es ++ es') = appended es ++ appended es'.
Proof. apply flat_map_app. Qed.

Lemma appended_of_no_attempt (es : list event) :
  add_attempts es = [] -> appended es = [].
Proof.
  induction es as [| e es IH]; [reflexivity|].
  destruct e; cbn; try assumption; discriminate.
Qed.

(** Step 4 asks the log for nothing. *)
Lemma handle_tool_calls_adds (w : World) (text : string) (r1 : Response.t)
      (h : list event) :
  add_attempts (snd (handle_tool_calls w text r1 h)) = [].
Proof.
  destruct (retrievable_parts (Response.candidates r1)) as [[parts |] | e] eqn:Hparts.
  - destruct (functionCalls_of parts) as [| c rest] eqn:Hcalls.
    + now rewrite (handle_tool_calls_without_calls w text h r1 Hparts Hcalls).
    + destruct (@handle_tool_calls_with_calls w text h r1 parts Hparts)
        as (outs & tes & Hrun & Heq); [congruence|].
      rewrite Heq. cbn [snd].
      rewrite add_attempts_app.
      destruct (tool_events_add_nothing _ (tools_run_events Hrun)) as [-> _].
      reflexivity.
  - now rewrite (handle_tool_calls_without_parts w text h r1 Hparts).
  - now rewrite (handle_tool_calls_type_error w text h r1 Hparts).
Qed.

Section Outcome.

Variable w : World.
Variables (change : Change.t) (h : list event).

Let messageData := Change.doc_data change.
Let docId := Change.doc_id change.

(** The whole handler in terms of its try block. *)
Lemma on_change_try_catch (r : result unit) (es : list event) :
  qualifies change ->
  flip_outcome w change h = Ok tt ->
  try_block w docId messageData (after_flip change h) = (r, es) ->
  on_change w change h =
  match r with
  | Ok _ => (Ok tt, announced change :: flip change (Ok tt) :: es)
  | Throw e =>
      let said := ConsoleError (ErrorGeneratingAIResponse e) in
      let h' := after_flip change h ++ es ++ [said] in
      let d := fallback_entry (clock w h') in
      let rf := firestore_add w h' d in
      (rf, announced change :: flip change (Ok tt) :: es ++ [said; DbAdd d rf])
  end.
Proof.
  intros Hq Hflip Htry.
  rewrite (on_change_flipped w h Hq Hflip).
  fold messageData docId. rewrite catch_eq, Htry.
  destruct r as [[] | e]; [reflexivity|].
  rewrite catch_block_eq. cbn zeta. now rewrite <- app_assoc.
Qed.

(** What a try block that throws has emitted: no entry accepted by the
    log, and any attempt in it carries the back-reference. *)
Lemma try_block_thrown (h2 : list event) (e : exn) (es : list event) :
  try_block w docId messageData h2 = (Throw e, es) ->
  appended es = [] /\
  Forall (fun d => Message.relatedToMessageId d = Some docId) (add_attempts es).
Proof.
  unfold docId, messageData. rewrite try_block_eq. cbn zeta.
  destruct (generateContent w h2 _) as [r1 | e1].
  - pose proof (handle_tool_calls_adds w (Message.text (Change.doc_data change)) r1
                  (h2 ++ [asked change (Ok r1)])) as Hadds.
    unfold asked in Hadds.
    destruct (handle_tool_calls w _ _ _) as [[final | e4] es4]; cbn [snd] in Hadds.
    + destruct (truthy_text final) as [t |] eqn:Ht.
      * rewrite (write_response_truthy w docId _ final Ht). cbn zeta.
        destruct (firestore_add w _ _) as [[] | ea]; intros [= <- <-].
        change (GenerateContent ?q ?r :: ?l ++ ?l') with ([GenerateContent q r] ++ l ++ l').
        rewrite !appended_app, !add_attempts_app, Hadds, (appended_of_no_attempt _ Hadds).
        cbn. split; [reflexivity|]. repeat constructor.
      * rewrite (write_response_falsy w docId _ final Ht). discriminate.
    + intros [= <- <-].
      change (GenerateContent ?q ?r :: ?l) with ([GenerateContent q r] ++ l).
      rewrite appended_app, add_attempts_app, Hadds, (appended_of_no_attempt _ Hadds).
      cbn. split; [reflexivity | constructor].
  - intros [= <- <-]. cbn. split; [reflexivity | constructor].
Qed.

End Outcome.

Lemma qualifies_decidable (change : Change.t) :
  qualifies change \/ ~ qualifies change.
Proof.
  unfold qualifies.
  destruct (Change.type change); try (right; intros (H & _); discriminate H).
  destruct (String.eqb_spec (Message.role (Change.doc_data change)) "user") as [-> | Hrole].
  - destruct (truthy (Message.processed (Change.doc_data change))).
    + right. intros (_ & _ & H). discriminate H.
    + left. repeat split.
  - right. intros (_ & H & _). contradiction.
Qed.

Section Answered.

Variable w : World.
Variables (change : Change.t) (h : list event).

Let text := Message.text (Change.doc_data change).
Let docId := Change.doc_id change.

(** A handler whose first request was answered and whose step 4 completed:
    what is left is step 5. *)
Lemma on_change_answered (r1 : Response.t) (final : option string) (es4 : list event) :
  qualifies change ->
  flip_outcome w change h = Ok tt ->
  first_outcome w change h = Ok r1 ->
  handle_tool_calls w text r1 (after_first change h (Ok r1)) = (Ok final, es4) ->
  try_block w docId (Change.doc_data change) (after_flip change h) =
  let (r5, es5) := write_response w docId final (after_first change h (Ok r1) ++ es4) in
  (r5, asked change (Ok r1) :: es4 ++ es5).
Proof.
  intros Hq Hflip Hfirst Hstep4. unfold docId.
  rewrite try_block_eq. cbn zeta.
  unfold first_outcome in Hfirst. rewrite Hfirst.
  unfold after_first, text, asked in Hstep4.
  replace (after_flip change h ++
           [GenerateContent (first_request (Message.text (Change.doc_data change))) (Ok r1)])
    with (h ++ [announced change; flip change (Ok tt);
                GenerateContent (first_request (Message.text (Change.doc_data change))) (Ok r1)])
    by (unfold after_flip; now rewrite <- app_assoc).
  rewrite Hstep4.
  replace (after_flip change h ++
           GenerateContent (first_request (Message.text (Change.doc_data change))) (Ok r1) :: es4)
    with (after_first change h (Ok r1) ++ es4)
    by (unfold after_flip, after_first, asked; now rewrite <- !app_assoc).
  destruct (write_response w _ _ _). reflexivity.
Qed.

(** The same when step 5 has nothing to write. *)
Lemma on_change_silent (r1 : Response.t) (final : option string) (es4 : list event) :
  qualifies change ->
  flip_outcome w change h = Ok tt ->
  first_outcome w change h = Ok r1 ->
  handle_tool_calls w text r1 (after_first change h (Ok r1)) = (Ok final, es4) ->
  truthy_text final = None ->
  on_change w change h =
  (Ok tt, announced change :: flip change (Ok tt) :: asked change (Ok r1) :: es4).
Proof.
  intros Hq Hflip Hfirst Hstep4 Hfalsy.
  pose proof (on_change_answered Hq Hflip Hfirst Hstep4) as Htry.
  rewrite (write_response_falsy w docId _ final Hfalsy) in Htry.
  rewrite (on_change_try_catch w h Hq Hflip Htry).
  now rewrite app_nil_r.
Qed.

End Answered.

Lemma no_content_structure_parts (r1 : Response.t) :
  no_content_structure r1 ->
  retrievable_parts (Response.candidates r1) = Ok None.
Proof. destruct 1; reflexivity. Qed.

Lemma truthy_text_none (final : option string) :
  truthy_text final = None <-> final = None \/ final = Some ""%string.
Proof.
  destruct final as [s |]; cbn.
  - destruct (String.eqb_spec s ""%string) as [-> | Hne]; split; intros H.
    + now right.
    + reflexivity.
    + discriminate H.
    + destruct H as [H | [= H]]; [discriminate H | contradiction].
  - split; auto.
Qed.

Lemma truthy_text_some (T : string) :
  T <> ""%string -> truthy_text (Some T) = Some T.
Proof.
  intros Hne. cbn. destruct (String.eqb_spec T ""%string); [contradiction | reflexivity].
Qed.

(* ------------------------------------------------------------------ *)
(** ** The response and the tool results, spelled out *)

Lemma functionCalls_of_spec (parts : list Part.t) :
  map Some (functionCalls_of parts) =
  filter (fun o => match o with Some _ => true | None => false end)
         (map Part.functionCall parts).
Proof.
  unfold functionCalls_of.
  induction parts as [| part parts IH]; [reflexivity|].
  cbn [flat_map map filter].
  destruct (Part.functionCall part); cbn [app map]; now rewrite IH.
Qed.

Lemma functionCalls_of_nonempty (parts : list Part.t) :
  (exists part call, In part parts /\ Part.functionCall part = Some call) ->
  functionCalls_of parts <> [].
Proof.
  intros (part & call & Hin & Hcall) Hnone.
  assert (Hsome : In (Some call) (map Some (functionCalls_of parts))).
  { rewrite functionCalls_of_spec. apply filter_In. split; [|reflexivity].
    rewrite <- Hcall. now apply in_map. }
  rewrite Hnone in Hsome. destruct Hsome.
Qed.

Lemma retrievable_parts_present (r1 : Response.t) (first : Candidate.t)
      (rest : list Candidate.t) (content : Content.t) (parts : list Part.t) :
  Response.candidates r1 = Some (first :: rest) ->
  Candidate.content first = Some content ->
  Content.parts content = Some parts ->
  retrievable_parts (Response.candidates r1) = Ok (Some parts).
Proof. intros -> Hcontent Hparts. cbn. now rewrite Hcontent, Hparts. Qed.

(** The tool loop in terms of the values the executor returned. *)
Lemma tools_run_results (w : World) calls h outs es :
  tools_run w calls h outs es ->
  exists results,
    executor_runs w calls h results es /\
    length results = length calls /\
    outs = map (fun cr =>
                  Part.Build None None
                    (Some (FunctionResponse.Build
                             (FunctionCall.name (fst cr))
                             (VObj [("result"%string, snd cr)]))))
               (combine calls results).
Proof.
  induction 1 as [| call rest h result es outs es' Hexec _ (results & Hruns & Hlen & ->)].
  - exists []. repeat split. constructor.
  - exists (result :: results). split; [|split].
    + econstructor; eassumption.
    + cbn. now rewrite Hlen.
    + reflexivity.
Qed.

(** A backend failure during the loop is the result of one of the calls. *)
Lemma executor_runs_failure (w : World) calls h results es :
  executor_runs w calls h results es ->
  forall ev e, In ev es -> backend_failure ev e ->
  exists call,
    In (call, VObj [("error"%string, VStr ("API Call Failed: " ++ message e)%string)])
       (combine calls results).
Proof.
  induction 1 as [| call rest h result es results es' Hexec _ IH]; intros ev e Hin Hfail.
  - destruct Hin.
  - apply in_app_or in Hin. destruct Hin as [Hin | Hin].
    + exists call. left.
      pose proof (@executeTool_failure w (FunctionCall.name call)
                    (FunctionCall.args call) h ev e) as Hf.
      rewrite Hexec in Hf. cbn in Hf. specialize (Hf Hin Hfail).
      injection Hf as ->. reflexivity.
    + destruct (IH ev e Hin Hfail) as [call' Hcall']. exists call'. now right.
Qed.

(* ------------------------------------------------------------------ *)
(** ** The tool executor *)

(** C7.  For every name other than 'check_tuition' and 'pay_tuition', and
    whatever the arguments are, the executor returns exactly
    [{error: 'Unknown tool'}] and sends nothing to the tuition backend. *)
Theorem unknown_tool_without_backend_call
        (w : World) (name args : value) (h : list event) :
  name <> VStr "check_tuition" ->
  name <> VStr "pay_tuition" ->
  fst (executeTool w name args h) = Ok (VObj [("error", VStr "Unknown tool")]) /\
  backend_calls (snd (executeTool w name args h)) = [].
Proof.
  intros Hcheck Hpay.
  apply strict_eq_str_false in Hcheck. apply strict_eq_str_false in Hpay.
  rewrite (executeTool_other w args h name Hcheck Hpay).
  split; reflexivity.
Qed.

Lemma unknown_tool_without_backend_call_witness :
  fst (executeTool w_tool (VStr "refund_tuition") (VObj [("student_id", VStr "S1")]) [])
  = Ok (VObj [("error", VStr "Unknown tool")]) /\
  backend_calls
    (snd (executeTool w_tool (VStr "refund_tuition") (VObj [("student_id", VStr "S1")]) []))
  = [].
Proof.
  apply (@unknown_tool_without_backend_call
           w_tool (VStr "refund_tuition") (VObj [("student_id", VStr "S1")]) []);
    discriminate.
Defined.

(** C10, as far as the code goes.  The executor never looks at the
    catalogue's [required] lists.  Given any argument object, pay_tuition
    sends the POST built from whatever the object holds, and check_tuition
    sends the GET whenever [args.student_id] can be put into the URL: to the
    text of a string, and to the path segment 'undefined' when
    [student_id], which [checkTuitionTool] requires, is absent.  When the
    conversion of [args.student_id] throws, nothing is sent and the
    TypeError comes back as the executor's error value. *)
Theorem known_tool_calls_backend_unvalidated
        (w : World) (fields : list (string * value)) (h : list event) :
  (exists r,
      backend_calls (snd (executeTool w (VStr "pay_tuition") (VObj fields) h)) =
      [AxiosPost (text_of (API_URL w) ++ "/tuition/pay")%string
                 (VObj [("student_id", lookup "student_id" fields);
                        ("amount", lookup "amount" fields)]) r]) /\
  (forall segment,
      ToString (Number_toString w) (lookup "student_id" fields) = Ok segment ->
      exists r,
        backend_calls (snd (executeTool w (VStr "check_tuition") (VObj fields) h)) =
        [AxiosGet (text_of (API_URL w) ++ "/tuition/" ++ segment)%string r]) /\
  (forall s,
      lookup "student_id" fields = VStr s ->
      exists r,
        backend_calls (snd (executeTool w (VStr "check_tuition") (VObj fields) h)) =
        [AxiosGet (text_of (API_URL w) ++ "/tuition/" ++ s)%string r]) /\
  In "student_id" (Schema.required_of (FunctionDeclaration.parameters checkTuitionTool)) /\
  (absent "student_id" fields ->
   exists r,
     backend_calls (snd (executeTool w (VStr "check_tuition") (VObj fields) h)) =
     [AxiosGet (text_of (API_URL w) ++ "/tuition/undefined")%string r]) /\
  (forall e,
      ToString (Number_toString w) (lookup "student_id" fields) = Throw e ->
      backend_calls (snd (executeTool w (VStr "check_tuition") (VObj fields) h)) = [] /\
      fst (executeTool w (VStr "check_tuition") (VObj fields) h) =
      Ok (VObj [("error", VStr ("API Call Failed: " ++ message e)%string)])).
Proof.
  assert (Hcheck : forall segment,
      ToString (Number_toString w) (lookup "student_id" fields) = Ok segment ->
      exists r,
        backend_calls (snd (executeTool w (VStr "check_tuition") (VObj fields) h)) =
        [AxiosGet (text_of (API_URL w) ++ "/tuition/" ++ segment)%string r]).
  { intros segment Hsegment.
    rewrite executeTool_check_tuition, get_object. cbn zeta. rewrite Hsegment.
    destruct (http_get w _ _) as [response | e]; eexists; reflexivity. }
  split; [|split; [|split; [|split; [|split]]]].
  - rewrite executeTool_pay_tuition, !get_object. cbn zeta.
    destruct (http_post w _ _ _) as [response | e]; eexists; reflexivity.
  - exact Hcheck.
  - intros s Hs. apply Hcheck. now rewrite Hs.
  - now left.
  - intros Habs. apply Hcheck. now rewrite (lookup_absent Habs).
  - intros e Hthrows.
    rewrite executeTool_check_tuition, get_object. cbn zeta. rewrite Hthrows.
    split; reflexivity.
Qed.

Lemma known_tool_calls_backend_unvalidated_witness :
  exists r,
    backend_calls (snd (executeTool w_tool (VStr "check_tuition") (VObj []) [])) =
    [AxiosGet "https://api.example/tuition/undefined" r].
Proof.
  apply (@known_tool_calls_backend_unvalidated w_tool [] []).
  intros v [].
Defined.

(** C10 as the specification states it, for every argument mapping, fails
    at a [student_id] that cannot be converted to a string: the object
    [{toString: 0}] has a [toString] of its own that is not a function, the
    template literal throws inside the try block, and no request leaves. *)
Lemma unconvertible_student_id_sends_no_request :
  executeTool w_tool (VStr "check_tuition")
    (VObj [("student_id"%string, VObj [("toString"%string, VNum 0)])]) [] =
  (Ok (VObj [("error"%string,
              VStr "API Call Failed: Cannot convert object to primitive value")]),
   [ConsoleLog (ToolExecution (VStr "check_tuition")
                  (VObj [("student_id"%string, VObj [("toString"%string, VNum 0)])]));
    ConsoleError (ToolError (VStr "check_tuition")
                    "Cannot convert object to primitive value")]) /\
  backend_calls
    (snd (executeTool w_tool (VStr "check_tuition")
            (VObj [("student_id"%string, VObj [("toString"%string, VNum 0)])]) [])) = [].
Proof. split; reflexivity. Qed.

(** C6.  The executor never raises: a failed backend request (any rejection
    of the axios promise, with its message) comes back as the value
    [{error: "API Call Failed: <message>"}].  The orchestrator's tool loop
    therefore always reaches the second model request, and a failure met on
    the way sits among that request's tool results like any other result:
    as [{functionResponse: {name, response: {result: {error: ...}}}}] under
    the name of the call that failed. *)
Theorem backend_failure_is_tool_output (w : World) :
  (forall name args h, exists v, fst (executeTool w name args h) = Ok v) /\
  (forall name args h ev e,
      In ev (snd (executeTool w name args h)) ->
      backend_failure ev e ->
      fst (executeTool w name args h) =
      Ok (VObj [("error", VStr ("API Call Failed: " ++ message e)%string)])) /\
  (forall text modelResponse first rest content parts h,
      Response.candidates modelResponse = Some (first :: rest) ->
      Candidate.content first = Some content ->
      Content.parts content = Some parts ->
      (exists part call, In part parts /\ Part.functionCall part = Some call) ->
      exists calls results tes r2,
        map Some calls =
          filter (fun o => match o with Some _ => true | None => false end)
                 (map Part.functionCall parts) /\
        executor_runs w calls h results tes /\
        let outs :=
          map (fun cr =>
                 Part.Build None None
                   (Some (FunctionResponse.Build
                            (FunctionCall.name (fst cr))
                            (VObj [("result", snd cr)]))))
              (combine calls results) in
        snd (handle_tool_calls w text modelResponse h) =
        tes ++ [GenerateContent
                  (Request.Build "gemini-2.5-flash-preview-09-2025"
                     [Content.Build "user" (Some [Part.Build (Some text) None None]);
                      Content.Build "model" (Some parts);
                      Content.Build "function" (Some outs)]
                     (Request.Config systemInstruction None))
                  r2] /\
        forall ev e,
          In ev (snd (handle_tool_calls w text modelResponse h)) ->
          backend_failure ev e ->
          exists call,
            In call calls /\
            In (Part.Build None None
                  (Some (FunctionResponse.Build
                           (FunctionCall.name call)
                           (VObj [("result",
                                   VObj [("error",
                                          VStr ("API Call Failed: " ++ message e)%string)])]))))
               outs).
Proof.
  split; [|split].
  - apply executeTool_returns.
  - intros name args h ev e. apply executeTool_failure.
  - intros text modelResponse first rest content parts h Hcands Hcontent Hparts Hsome.
    pose proof (retrievable_parts_present modelResponse Hcands Hcontent Hparts) as Hretr.
    pose proof (@functionCalls_of_nonempty parts Hsome) as Hcalls.
    destruct (handle_tool_calls_with_calls w text h modelResponse Hretr Hcalls)
      as (outs & tes & Hrun & Heq).
    destruct (tools_run_results Hrun) as (results & Hruns & Hlen & ->).
    exists (functionCalls_of parts), results, tes. eexists.
    split; [apply functionCalls_of_spec|]. split; [exact Hruns|].
    cbn zeta. split; [rewrite Heq; reflexivity|].
    intros ev e Hin Hfail. rewrite Heq in Hin. cbn [snd] in Hin.
    apply in_app_or in Hin. destruct Hin as [Hin | [<- | []]].
    + destruct (@executor_runs_failure w _ _ _ _ Hruns ev e Hin Hfail) as [call Hcall].
      exists call. split; [eapply in_combine_l; exact Hcall|].
      apply (in_map (fun cr =>
                       Part.Build None None
                         (Some (FunctionResponse.Build
                                  (FunctionCall.name (fst cr))
                                  (VObj [("result"%string, snd cr)]))))) in Hcall.
      exact Hcall.
    + destruct Hfail as [(url & Hev) | (url & body & Hev)]; discriminate Hev.
Qed.

(** On [w_backend_down] the second request carries the failure of the
    payment as the result of pay_tuition. *)
Lemma backend_failure_is_tool_output_witness :
  exists outs r2,
    In (GenerateContent
          (Request.Build "gemini-2.5-flash-preview-09-2025"
             [Content.Build "user" (Some [Part.Build (Some "Pay 50 for S1"%string) None None]);
              Content.Build "model"
                (Some [call_part "pay_tuition"
                         [("student_id"%string, VStr "S1"); ("amount"%string, VNum 50)]]);
              Content.Build "function" (Some outs)]
             (Request.Config systemInstruction None))
          r2)
       (snd (handle_tool_calls w_backend_down "Pay 50 for S1"
               (response_of
                  [call_part "pay_tuition"
                     [("student_id"%string, VStr "S1"); ("amount"%string, VNum 50)]] None)
               [])) /\
    In (Part.Build None None
          (Some (FunctionResponse.Build
                   (VStr "pay_tuition")
                   (VObj [("result"%string,
                           VObj [("error"%string,
                                  VStr "API Call Failed: Network Error")])]))))
       outs.
Proof.
  destruct (proj2 (proj2 (backend_failure_is_tool_output w_backend_down))
              "Pay 50 for S1"%string
              (response_of
                 [call_part "pay_tuition"
                    [("student_id"%string, VStr "S1"); ("amount"%string, VNum 50)]] None)
              (Candidate.Build
                 (Some (Content.Build "model"
                          (Some [call_part "pay_tuition"
                                   [("student_id"%string, VStr "S1");
                                    ("amount"%string, VNum 50)]]))))
              []
              (Content.Build "model"
                 (Some [call_part "pay_tuition"
                          [("student_id"%string, VStr "S1"); ("amount"%string, VNum 50)]]))
              [call_part "pay_tuition"
                 [("student_id"%string, VStr "S1"); ("amount"%string, VNum 50)]]
              [] eq_refl eq_refl eq_refl)
    as (calls & results & tes & r2 & Hcalls & _ & Hevents & Hfailure).
  - eexists _, _. split; [left; reflexivity | reflexivity].
  - cbn zeta in Hevents, Hfailure.
    destruct (Hfailure
                (AxiosPost "https://api.example/tuition/pay"
                   (VObj [("student_id"%string, VStr "S1"); ("amount"%string, VNum 50)])
                   (Throw network_error))
                network_error) as (call & Hcall & Hout).
    + right. left. reflexivity.
    + right. eexists _, _. reflexivity.
    + cbn in Hcalls.
      destruct calls as [| c [| c' calls]]; try discriminate Hcalls.
      injection Hcalls as ->.
      destruct Hcall as [<- | []].
      eexists _, r2. split; [|exact Hout].
      rewrite Hevents. apply in_or_app. right. left. reflexivity.
Defined.

(* ------------------------------------------------------------------ *)
(** ** The log bridge *)

(** C1.  An entry that is not an added, user-role, not-yet-processed entry
    is ignored: the handler does nothing at all.  Whenever the handler does
    send a request to the model, the entry passed that filter, and the
    write of [processed: true] to that entry stands completed in the trace
    before the request. *)
Theorem model_called_only_after_flip
        (w : World) (change : Change.t) (h : list event) :
  (~ qualifies change -> on_change w change h = (Ok tt, [])) /\
  (forall i req r,
      nth_error (snd (on_change w change h)) i = Some (GenerateContent req r) ->
      (Change.type change = Change.added /\
       Message.role (Change.doc_data change) = "user"%string /\
       truthy (Message.processed (Change.doc_data change)) = false) /\
      nth_error (snd (on_change w change h)) 1 =
      Some (DbUpdate (Change.doc_id change) [("processed"%string, VBool true)] (Ok tt)) /\
      1 < i).
Proof.
  split; [apply on_change_ignored|].
  intros i req r Hcall.
  destruct (qualifies_decidable change) as [Hq | Hnot].
  - split; [exact Hq|].
    destruct (flip_outcome w change h) as [[] | e] eqn:Hflip.
    + rewrite (on_change_flipped w h Hq Hflip) in *.
      match type of Hcall with
      | context [let (_, _) := ?c in _] => destruct c as [r' es]
      end.
      cbn [snd] in *.
      split; [reflexivity|].
      destruct i as [| [| i]]; [discriminate Hcall | discriminate Hcall | lia].
    + rewrite (on_change_flip_rejected w h Hq Hflip) in Hcall. cbn [snd] in Hcall.
      destruct i as [| [| [| i]]]; discriminate Hcall.
  - rewrite (on_change_ignored w h Hnot) in Hcall.
    destruct i; discriminate Hcall.
Qed.

Lemma model_called_only_after_flip_witness :
  nth_error (snd (on_change w_tool (user_message "What do I owe? I am S1") [])) 1 =
  Some (DbUpdate "doc1" [("processed"%string, VBool true)] (Ok tt)) /\
  1 < 2.
Proof.
  refine (proj2 (proj2 (@model_called_only_after_flip
                          w_tool (user_message "What do I owe? I am S1") [])
                       2 (first_request "What do I owe? I am S1") _ _)).
  reflexivity.
Defined.

(** C5.  When the first response has no retrievable content structure (no
    candidates, no content in the first candidate, or no parts in that
    content), the handler ends after the first model request: it asks the
    log to add nothing, neither a reply nor the apology, and resolves. *)
Theorem no_content_structure_no_reply
        (w : World) (change : Change.t) (h : list event) (r1 : Response.t) :
  qualifies change ->
  flip_outcome w change h = Ok tt ->
  first_outcome w change h = Ok r1 ->
  no_content_structure r1 ->
  on_change w change h =
  (Ok tt, [announced change; flip change (Ok tt); asked change (Ok r1)]) /\
  add_attempts (snd (on_change w change h)) = [].
Proof.
  intros Hq Hflip Hfirst Hnone.
  assert (Heq : on_change w change h =
                (Ok tt, [announced change; flip change (Ok tt); asked change (Ok r1)])).
  { apply on_change_silent with (final := Some ""%string); try assumption.
    - apply handle_tool_calls_without_parts. now apply no_content_structure_parts.
    - reflexivity. }
  split; [exact Heq|]. rewrite Heq. reflexivity.
Qed.

(** C9.  When the text that step 4 leaves in [finalResponseText] is falsy
    (undefined or the empty string), the handler asks the log to add
    nothing for the entry, no empty message and no apology, and resolves. *)
Theorem falsy_final_text_no_reply
        (w : World) (change : Change.t) (h : list event)
        (r1 : Response.t) (final : option string) (es4 : list event) :
  qualifies change ->
  flip_outcome w change h = Ok tt ->
  first_outcome w change h = Ok r1 ->
  handle_tool_calls w (Message.text (Change.doc_data change)) r1
                    (after_first change h (Ok r1)) = (Ok final, es4) ->
  final = None \/ final = Some ""%string ->
  on_change w change h =
  (Ok tt, announced change :: flip change (Ok tt) :: asked change (Ok r1) :: es4) /\
  add_attempts (snd (on_change w change h)) = [].
Proof.
  intros Hq Hflip Hfirst Hstep4 Hfalsy.
  apply truthy_text_none in Hfalsy.
  pose proof (on_change_silent w h Hq Hflip Hfirst Hstep4 Hfalsy) as Heq.
  split; [exact Heq|]. rewrite Heq. cbn [snd].
  pose proof (handle_tool_calls_adds w (Message.text (Change.doc_data change)) r1
                (after_first change h (Ok r1))) as Hadds.
  rewrite Hstep4 in Hadds. exact Hadds.
Qed.

Lemma no_content_structure_no_reply_witness :
  on_change w_no_candidates (user_message "Hello") [] =
  (Ok tt,
   [ConsoleLog (NewMessage "doc1" "Hello");
    DbUpdate "doc1" [("processed"%string, VBool true)] (Ok tt);
    GenerateContent (first_request "Hello") (Ok (Response.Build None None))]) /\
  add_attempts (snd (on_change w_no_candidates (user_message "Hello") [])) = [].
Proof.
  apply (@no_content_structure_no_reply
           w_no_candidates (user_message "Hello") [] (Response.Build None None)).
  - repeat split.
  - reflexivity.
  - reflexivity.
  - apply missing_candidates.
Defined.

Lemma falsy_final_text_no_reply_witness :
  add_attempts (snd (on_change w_second_without_text (user_message "I am S1") [])) = [].
Proof.
  refine (proj2 (@falsy_final_text_no_reply
                   w_second_without_text (user_message "I am S1") []
                   (response_of [call_part "check_tuition" [("student_id", VStr "S1")]] None)
                   None
                   (snd (handle_tool_calls w_second_without_text "I am S1"
                           (response_of
                              [call_part "check_tuition" [("student_id", VStr "S1")]] None)
                           (after_first (user_message "I am S1") []
                              (Ok (response_of
                                     [call_part "check_tuition" [("student_id", VStr "S1")]]
                                     None)))))
                   _ _ _ _ _)).
  - repeat split.
  - reflexivity.
  - reflexivity.
  - vm_compute. reflexivity.
  - left. reflexivity.
Defined.

Lemma related_entries_are_no_fallback (docId : string) (ds : list Message.t) :
  Forall (fun d => Message.relatedToMessageId d = Some docId) ds ->
  filter is_fallback ds = [].
Proof.
  induction 1 as [| d ds Hd _ IH]; [reflexivity|].
  cbn [filter]. unfold is_fallback at 1. rewrite Hd, andb_false_r. exact IH.
Qed.

(** C4.  When anything inside the try block throws (the first or second
    model request fails, reading the response fails, the write of the reply
    fails), the handler asks the log exactly once to add the fixed apology,
    as its last action: a model-role entry with that text and without
    [relatedToMessageId].  Nothing else the handler tried to add was
    accepted, so the apology is the only entry appended (when the log
    accepts it). *)
Theorem exception_yields_one_fallback
        (w : World) (change : Change.t) (h : list event) (e : exn) (es : list event) :
  qualifies change ->
  flip_outcome w change h = Ok tt ->
  try_block w (Change.doc_id change) (Change.doc_data change) (after_flip change h)
  = (Throw e, es) ->
  let said := ConsoleError (ErrorGeneratingAIResponse e) in
  let now := clock w (after_flip change h ++ es ++ [said]) in
  let rf := firestore_add w (after_flip change h ++ es ++ [said]) (fallback_entry now) in
  on_change w change h =
  (rf, announced change :: flip change (Ok tt) :: es ++ [said; DbAdd (fallback_entry now) rf]) /\
  filter is_fallback (add_attempts (snd (on_change w change h))) = [fallback_entry now] /\
  appended (snd (on_change w change h)) =
  match rf with Ok _ => [fallback_entry now] | Throw _ => [] end /\
  Message.text (fallback_entry now) =
  "I'm sorry, I encountered an error processing your request."%string /\
  Message.role (fallback_entry now) = "model"%string /\
  Message.relatedToMessageId (fallback_entry now) = None.
Proof.
  intros Hq Hflip Htry said now rf.
  assert (Heq : on_change w change h =
                (rf, announced change :: flip change (Ok tt)
                       :: es ++ [said; DbAdd (fallback_entry now) rf]))
    by exact (on_change_try_catch w h Hq Hflip Htry).
  destruct (try_block_thrown w change _ Htry) as [Happ Hrel].
  split; [exact Heq|]. rewrite Heq. cbn [snd].
  change (announced change :: flip change (Ok tt) :: es ++ [said; DbAdd (fallback_entry now) rf])
    with ([announced change; flip change (Ok tt)] ++ es ++ [said; DbAdd (fallback_entry now) rf]).
  rewrite !add_attempts_app, !appended_app, !filter_app, Happ.
  rewrite (related_entries_are_no_fallback Hrel).
  repeat split.
  cbn. destruct rf; reflexivity.
Qed.

Lemma exception_yields_one_fallback_witness :
  appended (snd (on_change w_model_down (user_message "Hello") [])) =
  [Message.Build "I'm sorry, I encountered an error processing your request."
                 "model" (DateOf 1700000000004) VUndefined None].
Proof.
  pose proof (@exception_yields_one_fallback
                w_model_down (user_message "Hello") []
                (Error "503 Service Unavailable")
                [GenerateContent (first_request "Hello")
                   (Throw (Error "503 Service Unavailable"))]) as H.
  cbv zeta in H.
  destruct H as (_ & _ & H & _).
  - repeat split.
  - reflexivity.
  - reflexivity.
  - exact H.
Defined.

(** C3, for a non-empty text.  When the parts of the first response hold no
    function call and the response has a non-empty text T, the handler asks
    the log to add one model-role entry whose text is T and whose
    [relatedToMessageId] is the id of the user entry; when the log accepts
    it, it is the only entry appended and the handler resolves. *)
Theorem no_tool_reply_appended
        (w : World) (change : Change.t) (h : list event)
        (r1 : Response.t) (parts : list Part.t) (T : string) :
  qualifies change ->
  flip_outcome w change h = Ok tt ->
  first_outcome w change h = Ok r1 ->
  retrievable_parts (Response.candidates r1) = Ok (Some parts) ->
  functionCalls_of parts = [] ->
  Response.text r1 = Some T ->
  T <> ""%string ->
  let d := Message.Build T "model" (DateOf (clock w (after_first change h (Ok r1))))
                         VUndefined (Some (Change.doc_id change)) in
  let ra := firestore_add w (after_first change h (Ok r1)) d in
  (exists tail,
      snd (on_change w change h) =
      announced change :: flip change (Ok tt) :: asked change (Ok r1) :: DbAdd d ra :: tail) /\
  (ra = Ok tt ->
   on_change w change h =
   (Ok tt, [announced change; flip change (Ok tt); asked change (Ok r1);
            DbAdd d ra; ConsoleLog ReplySent]) /\
   appended (snd (on_change w change h)) = [d]).
Proof.
  intros Hq Hflip Hfirst Hparts Hcalls Htext Hne d ra.
  pose proof (handle_tool_calls_without_calls w (Message.text (Change.doc_data change))
                (after_first change h (Ok r1)) r1 Hparts Hcalls) as Hstep4.
  pose proof (on_change_answered w h Hq Hflip Hfirst Hstep4) as Htry.
  rewrite Htext, app_nil_r in Htry.
  rewrite (write_response_truthy w (Change.doc_id change) _ (Some T) (truthy_text_some Hne))
    in Htry.
  cbn zeta in Htry. fold d ra in Htry. unfold reply_entry in Htry. fold d ra in Htry.
  destruct ra as [[] | ea] eqn:Hra.
  - rewrite (on_change_try_catch w h Hq Hflip Htry). cbn [snd app].
    split; [eexists; reflexivity|].
    intros _. split; reflexivity.
  - rewrite (on_change_try_catch w h Hq Hflip Htry). cbn [snd app].
    split; [eexists; reflexivity | discriminate].
Qed.

Lemma no_tool_reply_appended_witness :
  appended (snd (on_change (w_plain (Some "Hello!")) (user_message "Hi") [])) =
  [Message.Build "Hello!" "model" (DateOf 1700000000003) VUndefined (Some "doc1"%string)].
Proof.
  pose proof (@no_tool_reply_appended
                (w_plain (Some "Hello!")) (user_message "Hi") []
                (response_of [text_part "Hello!"] (Some "Hello!"))
                [text_part "Hello!"] "Hello!") as H.
  cbv zeta in H.
  destruct H as (_ & H).
  - repeat split.
  - reflexivity.
  - reflexivity.
  - reflexivity.
  - reflexivity.
  - reflexivity.
  - discriminate.
  - apply H. reflexivity.
Defined.

(** C3 as the specification states it, for every text T, fails at the
    empty text: the first response below has parts, none of them a function
    call, and text [""], and the handler adds nothing to the log. *)
Lemma empty_text_reply_is_dropped :
  qualifies (user_message "Hi") /\
  flip_outcome (w_plain (Some ""%string)) (user_message "Hi") [] = Ok tt /\
  first_outcome (w_plain (Some ""%string)) (user_message "Hi") [] =
  Ok (response_of [text_part ""] (Some ""%string)) /\
  retrievable_parts (Response.candidates (response_of [text_part ""] (Some ""%string)))
  = Ok (Some [text_part ""]) /\
  functionCalls_of [text_part ""] = [] /\
  Response.text (response_of [text_part ""] (Some ""%string)) = Some ""%string /\
  on_change (w_plain (Some ""%string)) (user_message "Hi") [] =
  (Ok tt,
   [ConsoleLog (NewMessage "doc1" "Hi");
    DbUpdate "doc1" [("processed"%string, VBool true)] (Ok tt);
    GenerateContent (first_request "Hi") (Ok (response_of [text_part ""] (Some ""%string)))]) /\
  ~ (exists d r, In (DbAdd d r) (snd (on_change (w_plain (Some ""%string)) (user_message "Hi") []))).
Proof.
  repeat split.
  intros (d & r & Hin). cbn in Hin.
  destruct Hin as [Hin | [Hin | [Hin | []]]]; discriminate Hin.
Qed.

(* ------------------------------------------------------------------ *)
(** ** Where [createdAt] comes from *)

Lemma stamped_quiet (w : World) (h es : list event) :
  add_attempts es = [] -> stamped_by_own_clock w h es.
Proof.
  intros Hquiet pre d r post ->.
  rewrite add_attempts_app in Hquiet. cbn in Hquiet.
  apply app_eq_nil in Hquiet. destruct Hquiet as [_ Hquiet]. discriminate Hquiet.
Qed.

Lemma stamped_add (w : World) (h : list event) (d : Message.t) (r : result unit) :
  Message.createdAt d = DateOf (clock w h) ->
  stamped_by_own_clock w h [DbAdd d r].
Proof.
  intros Hd pre d' r' post Heq.
  destruct pre as [| x pre].
  - injection Heq as <- _ _. now rewrite app_nil_r.
  - injection Heq as _ Heq. destruct pre; discriminate Heq.
Qed.

Lemma stamped_app (w : World) (h es es' : list event) :
  stamped_by_own_clock w h es ->
  stamped_by_own_clock w (h ++ es) es' ->
  stamped_by_own_clock w h (es ++ es').
Proof.
  intros Hes Hes' pre d r post Heq.
  apply app_eq_app in Heq. destruct Heq as (l & [[-> Hpost] | [-> ->]]).
  - destruct l as [| x l].
    + cbn in Hpost. rewrite app_nil_r in Hes'.
      specialize (Hes' [] d r post (eq_sym Hpost)). now rewrite app_nil_r in Hes'.
    + injection Hpost as <- ->. now apply (Hes pre d r l).
  - rewrite app_assoc. now apply (Hes' l d r post).
Qed.

Lemma try_block_stamped (w : World) (docId : string) (messageData : Message.t)
      (h2 : list event) :
  stamped_by_own_clock w h2 (snd (try_block w docId messageData h2)).
Proof.
  pose (change := Change.Build Change.added docId messageData).
  change docId with (Change.doc_id change).
  change messageData with (Change.doc_data change).
  rewrite try_block_eq. cbn zeta.
  destruct (generateContent w h2 _) as [r1 | e1]; [|now apply stamped_quiet].
  pose proof (handle_tool_calls_adds w (Message.text (Change.doc_data change)) r1
                (h2 ++ [asked change (Ok r1)])) as Hadds.
  unfold asked in Hadds.
  destruct (handle_tool_calls w _ _ _) as [[final | e4] es4]; cbn [snd] in Hadds;
    [|now apply stamped_quiet].
  destruct (truthy_text final) as [t |] eqn:Ht.
  - rewrite (write_response_truthy w (Change.doc_id change) _ final Ht). cbn zeta.
    destruct (firestore_add w _ _) as [[] | ea]; cbn [snd];
      change (GenerateContent ?q ?r :: ?l ++ ?l') with ((GenerateContent q r :: l) ++ l');
      apply stamped_app; try (now apply stamped_quiet).
    + change [DbAdd ?d ?r; ?x] with ([DbAdd d r] ++ [x]).
      apply stamped_app; [now apply stamped_add | now apply stamped_quiet].
    + now apply stamped_add.
  - rewrite (write_response_falsy w (Change.doc_id change) _ final Ht). cbn [snd].
    rewrite app_nil_r. now apply stamped_quiet.
Qed.

(** C8, as the code has it.  Every entry the handler asks the log to add,
    reply or apology, carries as [createdAt] an instant read from the
    agent's own clock ([new Date()]) when the request is built; the
    server-side sentinel is never used. *)
Theorem created_at_is_the_agents_clock
        (w : World) (change : Change.t) (h : list event)
        (pre : list event) (d : Message.t) (r : result unit) (post : list event) :
  snd (on_change w change h) = pre ++ DbAdd d r :: post ->
  Message.createdAt d = DateOf (clock w (h ++ pre)) /\
  Message.createdAt d <> ServerTimestamp.
Proof.
  intros Heq.
  assert (Hstamped : stamped_by_own_clock w h (snd (on_change w change h))).
  { destruct (qualifies_decidable change) as [Hq | Hnot].
    - destruct (flip_outcome w change h) as [[] | e] eqn:Hflip.
      + destruct (try_block w (Change.doc_id change) (Change.doc_data change)
                            (after_flip change h)) as [rt es] eqn:Htry.
        pose proof (try_block_stamped w (Change.doc_id change) (Change.doc_data change)
                      (after_flip change h)) as Hes.
        rewrite Htry in Hes. cbn [snd] in Hes.
        rewrite (on_change_try_catch w h Hq Hflip Htry).
        destruct rt as [[] | e]; cbn [snd];
          change (announced change :: flip change (Ok tt) :: ?l)
            with ([announced change; flip change (Ok tt)] ++ l);
          (apply stamped_app; [now apply stamped_quiet|]); fold (after_flip change h).
        * exact Hes.
        * apply stamped_app; [exact Hes|].
          change [?x; DbAdd ?d ?r] with ([x] ++ [DbAdd d r]).
          apply stamped_app; [now apply stamped_quiet|].
          apply stamped_add. cbn. now rewrite <- app_assoc.
      + rewrite (on_change_flip_rejected w h Hq Hflip). now apply stamped_quiet.
    - rewrite (on_change_ignored w h Hnot). now apply stamped_quiet. }
  rewrite (Hstamped pre d r post Heq). split; [reflexivity | discriminate].
Qed.

Lemma created_at_is_the_agents_clock_witness :
  Message.createdAt (reply_entry "Hello!" 1700000000003 "doc1") = DateOf 1700000000003 /\
  Message.createdAt (reply_entry "Hello!" 1700000000003 "doc1") <> ServerTimestamp.
Proof.
  refine (@created_at_is_the_agents_clock
            (w_plain (Some "Hello!")) (user_message "Hi") []
            [ConsoleLog (NewMessage "doc1" "Hi");
             DbUpdate "doc1" processed_true (Ok tt);
             GenerateContent (first_request "Hi") (plain_answer (Some "Hello!"))]
            (reply_entry "Hello!" 1700000000003 "doc1") (Ok tt)
            [ConsoleLog ReplySent] _).
  reflexivity.
Defined.

(** C8 as the specification states it fails: the reply below and the apology
    below are sent to the log with an instant of the agent's clock in
    [createdAt], not with the sentinel that makes the log assign the time. *)
Lemma created_at_is_not_server_assigned :
  map Message.createdAt
      (add_attempts (snd (on_change (w_plain (Some "Hello!")) (user_message "Hi") [])))
  = [DateOf 1700000000003] /\
  map Message.createdAt
      (add_attempts (snd (on_change w_model_down (user_message "Hi") [])))
  = [DateOf 1700000000004] /\
  DateOf 1700000000003 <> ServerTimestamp /\
  DateOf 1700000000004 <> ServerTimestamp.
Proof. repeat split; discriminate. Qed.

(* ------------------------------------------------------------------ *)
(** ** The tool path *)

Lemma model_requests_app (es es' : list event) :
  model_requests (es ++ es') = model_requests es ++ model_requests es'.
Proof. apply flat_map_app. Qed.

(** Step 5 and the catch block never talk to the model. *)
Lemma write_response_shape (w : World) (docId : string) (final : option string)
      (h5 : list event) :
  model_requests (snd (write_response w docId final h5)) = [] /\
  (forall T, truthy_text final = Some T ->
     exists ra rest,
       snd (write_response w docId final h5) =
       DbAdd (reply_entry T (clock w h5) docId) ra :: rest /\
       model_requests rest = []) /\
  (truthy_text final = None -> snd (write_response w docId final h5) = []).
Proof.
  destruct (truthy_text final) as [t |] eqn:Ht.
  - rewrite (write_response_truthy w docId h5 final Ht). cbn zeta.
    destruct (firestore_add w h5 _) as [[] | ea]; cbn [snd];
      (split; [reflexivity|]); (split; [|discriminate]);
      intros T [= <-]; eexists _, _; split; reflexivity.
  - rewrite (write_response_falsy w docId h5 final Ht). cbn [snd].
    split; [reflexivity|]. split; [discriminate | reflexivity].
Qed.

(** The tool path in terms of the parts the loop collects. *)
Lemma tool_path_shape
        (w : World) (change : Change.t) (h : list event)
        (r1 : Response.t) (parts : list Part.t) :
  qualifies change ->
  flip_outcome w change h = Ok tt ->
  first_outcome w change h = Ok r1 ->
  retrievable_parts (Response.candidates r1) = Ok (Some parts) ->
  functionCalls_of parts <> [] ->
  let text := Message.text (Change.doc_data change) in
  let h3 := after_first change h (Ok r1) in
  exists outs tes tail,
    tools_run w (functionCalls_of parts) h3 outs tes /\
    map tag_of outs =
      map (fun call => Some (FunctionCall.name call)) (functionCalls_of parts) /\
    let req2 := second_request text parts outs in
    let r2 := generateContent w (h3 ++ tes) req2 in
    Request.contents req2 =
      [Content.Build "user" (Some [Part.Build (Some text) None None]);
       Content.Build "model" (Some parts);
       Content.Build "function" (Some outs)] /\
    snd (on_change w change h) =
      announced change :: flip change (Ok tt) :: asked change (Ok r1)
      :: tes ++ GenerateContent req2 r2 :: tail /\
    model_requests (snd (on_change w change h)) = [first_request text; req2] /\
    forall secondResponse,
      r2 = Ok secondResponse ->
      handle_tool_calls w text r1 h3 =
        (Ok (Response.text secondResponse), tes ++ [GenerateContent req2 r2]) /\
      (forall T,
          Response.text secondResponse = Some T -> T <> ""%string ->
          exists ra rest,
            tail = DbAdd (Message.Build T "model"
                            (DateOf (clock w (h3 ++ tes ++ [GenerateContent req2 r2])))
                            VUndefined (Some (Change.doc_id change))) ra :: rest) /\
      (Response.text secondResponse = None \/
       Response.text secondResponse = Some ""%string -> tail = []).
Proof.
  intros Hq Hflip Hfirst Hparts Hcalls text h3.
  destruct (handle_tool_calls_with_calls w text h3 r1 Hparts Hcalls)
    as (outs & tes & Hrun & Hstep4).
  cbn zeta in Hstep4.
  set (req2 := second_request text parts outs) in *.
  set (r2 := generateContent w (h3 ++ tes) req2) in *.
  destruct (tool_events_add_nothing _ (tools_run_events Hrun)) as [_ Htes].
  (* the events of the whole handler, by the outcome of the second request *)
  assert (Hshape : exists tail,
             snd (on_change w change h) =
             announced change :: flip change (Ok tt) :: asked change (Ok r1)
             :: tes ++ GenerateContent req2 r2 :: tail /\
             model_requests tail = [] /\
             forall secondResponse,
               r2 = Ok secondResponse ->
               (forall T, truthy_text (Response.text secondResponse) = Some T ->
                  exists ra rest,
                    tail = DbAdd (reply_entry T
                                    (clock w (h3 ++ tes ++ [GenerateContent req2 r2]))
                                    (Change.doc_id change)) ra :: rest) /\
               (truthy_text (Response.text secondResponse) = None -> tail = [])).
  { destruct r2 as [secondResponse | e2] eqn:Hr2.
    - pose proof (on_change_answered w h Hq Hflip Hfirst Hstep4) as Htry.
      destruct (write_response_shape w (Change.doc_id change)
                  (Response.text secondResponse)
                  (h3 ++ tes ++ [GenerateContent req2 (Ok secondResponse)]))
        as (Hquiet & Htruthy & Hfalsy).
      fold h3 in Htry.
      destruct (write_response w _ _ _) as [r5 es5] eqn:Hstep5. cbn [snd] in *.
      rewrite (on_change_try_catch w h Hq Hflip Htry).
      destruct r5 as [[] | e5]; cbn zeta; cbn [snd].
      + exists es5. rewrite <- app_assoc. cbn [app].
        split; [reflexivity|]. split; [exact Hquiet|].
        intros s [= <-]. split.
        * intros T HT. destruct (Htruthy T HT) as (ra & rest & -> & _). eauto.
        * exact Hfalsy.
      + match goal with
        | |- context [(?x :: (tes ++ [?g]) ++ es5) ++ [?a; ?b]] =>
            exists (es5 ++ [a; b]);
            replace ((x :: (tes ++ [g]) ++ es5) ++ [a; b])
              with (x :: tes ++ g :: es5 ++ [a; b])
              by (cbn [app]; now rewrite <- !app_assoc)
        end.
        split; [reflexivity|]. split; [now rewrite model_requests_app, Hquiet|].
        intros s [= <-]. split.
        * intros T HT. destruct (Htruthy T HT) as (ra & rest & -> & _).
          cbn [app]. eauto.
        * (* step 5 had nothing to write, so it cannot have thrown *)
          intros HF. rewrite (write_response_falsy w _ _ _ HF) in Hstep5.
          discriminate Hstep5.
    - assert (Htry : try_block w (Change.doc_id change) (Change.doc_data change)
                       (after_flip change h) =
                     (Throw e2, asked change (Ok r1) :: tes ++ [GenerateContent req2 (Throw e2)])).
      { rewrite try_block_eq. cbn zeta.
        unfold first_outcome in Hfirst. rewrite Hfirst.
        replace (after_flip change h ++
                 [GenerateContent (first_request (Message.text (Change.doc_data change)))
                    (Ok r1)])
          with h3 by (unfold h3, after_first, after_flip, asked; now rewrite <- app_assoc).
        fold text. rewrite Hstep4. reflexivity. }
      rewrite (on_change_try_catch w h Hq Hflip Htry). cbn zeta. cbn [snd].
      match goal with
      | |- context [(?x :: tes ++ [?g]) ++ [?a; ?b]] =>
          exists [a; b];
          replace ((x :: tes ++ [g]) ++ [a; b]) with (x :: tes ++ g :: [a; b])
            by (cbn [app]; now rewrite <- !app_assoc)
      end.
      split; [reflexivity|]. split; [reflexivity|].
      intros s Hs. discriminate Hs. }
  destruct Hshape as (tail & Hevents & Htail & Hreply).
  exists outs, tes, tail.
  split; [exact Hrun|]. split; [exact (tools_run_tags Hrun)|].
  cbn zeta. fold req2 r2.
  split; [reflexivity|]. split; [exact Hevents|]. split.
  - rewrite Hevents.
    change (announced change :: flip change (Ok tt) :: asked change (Ok r1)
            :: tes ++ GenerateContent req2 r2 :: tail)
      with ([announced change; flip change (Ok tt); asked change (Ok r1)]
            ++ tes ++ [GenerateContent req2 r2] ++ tail).
    rewrite !model_requests_app, Htes, Htail. reflexivity.
  - intros secondResponse Hr2.
    destruct (Hreply secondResponse Hr2) as [Htruthy Hfalsy].
    split; [|split].
    + rewrite Hstep4, Hr2. reflexivity.
    + intros T HT Hne. apply Htruthy. rewrite HT. now apply truthy_text_some.
    + intros HF. apply Hfalsy. now apply truthy_text_none.
Qed.

(** C2, with the condition the code puts on the append.  When the parts of
    the first response hold function calls, the handler runs the executor
    once for each of them, one run after the other in the order in which
    the parts hold them.  It then sends the model a second request whose
    history is exactly: the user's text; the parts of the first response;
    and one part [{functionResponse: {name, response: {result}}}] per call,
    in the same order, with the call's name and the value the executor
    returned for it.  These are the only two model requests.  When the
    second request is answered, its text is [finalResponseText]: if it is a
    non-empty T, the next thing the handler does is ask the log to add the
    reply with text T for this entry, and if it is missing or empty the
    handler stops there. *)
Theorem tool_calls_then_second_request
        (w : World) (change : Change.t) (h : list event)
        (r1 : Response.t) (first : Candidate.t) (rest : list Candidate.t)
        (content : Content.t) (parts : list Part.t) :
  qualifies change ->
  flip_outcome w change h = Ok tt ->
  first_outcome w change h = Ok r1 ->
  Response.candidates r1 = Some (first :: rest) ->
  Candidate.content first = Some content ->
  Content.parts content = Some parts ->
  (exists part call, In part parts /\ Part.functionCall part = Some call) ->
  let text := Message.text (Change.doc_data change) in
  let h3 := after_first change h (Ok r1) in
  exists calls results tes tail,
    map Some calls =
      filter (fun o => match o with Some _ => true | None => false end)
             (map Part.functionCall parts) /\
    executor_runs w calls h3 results tes /\
    length results = length calls /\
    let outs :=
      map (fun cr =>
             Part.Build None None
               (Some (FunctionResponse.Build
                        (FunctionCall.name (fst cr))
                        (VObj [("result"%string, snd cr)]))))
          (combine calls results) in
    let req1 :=
      Request.Build "gemini-2.5-flash-preview-09-2025"
        [Content.Build "user" (Some [Part.Build (Some text) None None])]
        (Request.Config systemInstruction (Some [[checkTuitionTool; payTuitionTool]])) in
    let req2 :=
      Request.Build "gemini-2.5-flash-preview-09-2025"
        [Content.Build "user" (Some [Part.Build (Some text) None None]);
         Content.Build "model" (Some parts);
         Content.Build "function" (Some outs)]
        (Request.Config systemInstruction None) in
    let r2 := generateContent w (h3 ++ tes) req2 in
    snd (on_change w change h) =
      announced change :: flip change (Ok tt) :: GenerateContent req1 (Ok r1)
      :: tes ++ GenerateContent req2 r2 :: tail /\
    model_requests (snd (on_change w change h)) = [req1; req2] /\
    forall secondResponse,
      r2 = Ok secondResponse ->
      handle_tool_calls w text r1 h3 =
        (Ok (Response.text secondResponse), tes ++ [GenerateContent req2 r2]) /\
      (forall T,
          Response.text secondResponse = Some T -> T <> ""%string ->
          exists ra rest',
            tail = DbAdd (Message.Build T "model"
                            (DateOf (clock w (h3 ++ tes ++ [GenerateContent req2 r2])))
                            VUndefined (Some (Change.doc_id change))) ra :: rest') /\
      (Response.text secondResponse = None \/
       Response.text secondResponse = Some ""%string -> tail = []).
Proof.
  intros Hq Hflip Hfirst Hcands Hcontent Hparts Hsome text h3.
  pose proof (retrievable_parts_present r1 Hcands Hcontent Hparts) as Hretr.
  pose proof (@functionCalls_of_nonempty parts Hsome) as Hcalls.
  destruct (tool_path_shape w h Hq Hflip Hfirst Hretr Hcalls)
    as (outs & tes & tail & Hrun & _ & Hrest).
  fold text h3 in Hrun, Hrest.
  destruct (tools_run_results Hrun) as (results & Hruns & Hlen & ->).
  exists (functionCalls_of parts), results, tes, tail.
  split; [apply functionCalls_of_spec|].
  split; [exact Hruns|]. split; [exact Hlen|].
  cbn zeta in Hrest |- *.
  destruct Hrest as (_ & Hevents & Hmodel & Hreply).
  split; [exact Hevents|]. split; [exact Hmodel|]. exact Hreply.
Qed.

(** Two calls with a remark between them: both are run, check_tuition
    first, and the second request lists both results in that order. *)
Lemma tool_calls_then_second_request_witness :
  exists checked paid,
    model_requests (snd (on_change w_two_tools (user_message "Pay 50 for S1") [])) =
    [Request.Build "gemini-2.5-flash-preview-09-2025"
       [Content.Build "user" (Some [Part.Build (Some "Pay 50 for S1"%string) None None])]
       (Request.Config systemInstruction (Some [[checkTuitionTool; payTuitionTool]]));
     Request.Build "gemini-2.5-flash-preview-09-2025"
       [Content.Build "user" (Some [Part.Build (Some "Pay 50 for S1"%string) None None]);
        Content.Build "model"
          (Some [call_part "check_tuition" [("student_id"%string, VStr "S1")];
                 text_part "Then I pay.";
                 call_part "pay_tuition"
                   [("student_id"%string, VStr "S1"); ("amount"%string, VNum 50)]]);
        Content.Build "function"
          (Some [Part.Build None None
                   (Some (FunctionResponse.Build (VStr "check_tuition")
                            (VObj [("result"%string, checked)])));
                 Part.Build None None
                   (Some (FunctionResponse.Build (VStr "pay_tuition")
                            (VObj [("result"%string, paid)])))])]
       (Request.Config systemInstruction None)].
Proof.
  destruct (@tool_calls_then_second_request
              w_two_tools (user_message "Pay 50 for S1") []
              (response_of
                 [call_part "check_tuition" [("student_id"%string, VStr "S1")];
                  text_part "Then I pay.";
                  call_part "pay_tuition"
                    [("student_id"%string, VStr "S1"); ("amount"%string, VNum 50)]]
                 (Some "Then I pay."%string))
              (Candidate.Build
                 (Some (Content.Build "model"
                          (Some [call_part "check_tuition" [("student_id"%string, VStr "S1")];
                                 text_part "Then I pay.";
                                 call_part "pay_tuition"
                                   [("student_id"%string, VStr "S1");
                                    ("amount"%string, VNum 50)]]))))
              []
              (Content.Build "model"
                 (Some [call_part "check_tuition" [("student_id"%string, VStr "S1")];
                        text_part "Then I pay.";
                        call_part "pay_tuition"
                          [("student_id"%string, VStr "S1"); ("amount"%string, VNum 50)]]))
              [call_part "check_tuition" [("student_id"%string, VStr "S1")];
               text_part "Then I pay.";
               call_part "pay_tuition"
                 [("student_id"%string, VStr "S1"); ("amount"%string, VNum 50)]])
    as (calls & results & tes & tail & Hcalls & _ & Hlen & H).
  - repeat split.
  - reflexivity.
  - reflexivity.
  - reflexivity.
  - reflexivity.
  - reflexivity.
  - eexists _, _. split; [left; reflexivity | reflexivity].
  - cbn zeta in H. destruct H as (_ & Hmodel & _).
    cbn in Hcalls.
    destruct calls as [| c1 [| c2 [| c3 calls]]]; try discriminate Hcalls.
    injection Hcalls as -> ->.
    destruct results as [| checked [| paid [| other results]]]; try discriminate Hlen.
    exists checked, paid. exact Hmodel.
Defined.

(** The round trip of the specification, run: the model asks for
    [check_tuition(student_id = "S1")]; the executor sends one GET for S1;
    the backend's body comes back to the model as the function response
    tagged 'check_tuition'; the text of the second response is the reply
    that is appended, linked to the user entry. *)
Example tool_round_trip :
  let es := snd (on_change w_tool (user_message "I am S1") []) in
  backend_calls es =
    [AxiosGet "https://api.example/tuition/S1"
              (Ok (AxiosResponse.Build (VObj [("balance"%string, VNum 100)])))] /\
  model_requests es =
    [first_request "I am S1";
     second_request "I am S1"
       [call_part "check_tuition" [("student_id"%string, VStr "S1")]]
       [functionResponse_part (VStr "check_tuition")
                              (VObj [("balance"%string, VNum 100)])]] /\
  appended es =
    [Message.Build "You owe 100." "model" (DateOf 1700000000006) VUndefined
                   (Some "doc1"%string)].
Proof. repeat split. Qed.

(** The same with two calls: the GET of check_tuition leaves before the
    POST of pay_tuition, and both answers reach the second request. *)
Example two_tools_round_trip :
  backend_calls (snd (on_change w_two_tools (user_message "Pay 50 for S1") [])) =
    [AxiosGet "https://api.example/tuition/S1"
              (Ok (AxiosResponse.Build (VObj [("balance"%string, VNum 100)])));
     AxiosPost "https://api.example/tuition/pay"
               (VObj [("student_id"%string, VStr "S1"); ("amount"%string, VNum 50)])
               (Ok (AxiosResponse.Build (VObj [("balance"%string, VNum 100)])))] /\
  appended (snd (on_change w_two_tools (user_message "Pay 50 for S1") [])) =
    [Message.Build "Paid." "model" (DateOf 1700000000008) VUndefined (Some "doc1"%string)].
Proof. split; reflexivity. Qed.

(** C2 as the specification states it fails at an empty second text: the
    first response below asks for a tool, the second request is answered
    with the text [""], and the handler adds nothing to the log. *)
Lemma empty_second_text_is_not_appended :
  qualifies (user_message "I am S1") /\
  flip_outcome w_second_empty_text (user_message "I am S1") [] = Ok tt /\
  first_outcome w_second_empty_text (user_message "I am S1") [] =
  Ok (response_of [call_part "check_tuition" [("student_id"%string, VStr "S1")]] None) /\
  functionCalls_of [call_part "check_tuition" [("student_id"%string, VStr "S1")]] =
  [FunctionCall.Build (VStr "check_tuition") (VObj [("student_id"%string, VStr "S1")])] /\
  In (GenerateContent
        (second_request "I am S1"
           [call_part "check_tuition" [("student_id"%string, VStr "S1")]]
           [functionResponse_part (VStr "check_tuition")
                                  (VObj [("balance"%string, VNum 100)])])
        (Ok (response_of [text_part ""] (Some ""%string))))
     (snd (on_change w_second_empty_text (user_message "I am S1") [])) /\
  fst (on_change w_second_empty_text (user_message "I am S1") []) = Ok tt /\
  add_attempts (snd (on_change w_second_empty_text (user_message "I am S1") [])) = [].
Proof.
  repeat split.
  cbn. do 5 right. left. reflexivity.
Qed.

(** When the log refuses the reply, the refusal is caught like any other
    exception: the apology is attempted next, and nothing is appended. *)
Example refused_reply_then_apology :
  add_attempts (snd (on_change w_log_refuses (user_message "Hi") [])) =
  [reply_entry "Hello!" 1700000000003 "doc1"; fallback_entry 1700000000005] /\
  appended (snd (on_change w_log_refuses (user_message "Hi") [])) = [] /\
  fst (on_change w_log_refuses (user_message "Hi") []) = Throw (Error "UNAVAILABLE").
Proof. repeat split. Qed.

(** An empty [candidates] array is not one of the three missing links: reading
    [candidates[0].content] throws, and the catch block sends the apology. *)
Example empty_candidates_array_is_caught :
  appended (snd (on_change
                   (scripted base (Ok (Response.Build (Some []) None)) (plain_answer None)
                             (Ok (AxiosResponse.Build VNull)) (Ok tt) (Ok tt))
                   (user_message "Hi") [])) =
  [fallback_entry 1700000000004].
Proof. reflexivity. Qed.

(** Arguments that are not even an object: the TypeError of
    [args.student_id] is caught inside the executor. *)
Example undefined_args_are_caught :
  executeTool w_tool (VStr "check_tuition") VUndefined [] =
  (Ok (VObj [("error"%string,
              VStr "API Call Failed: Cannot read properties of undefined (reading 'student_id')")]),
   [ConsoleLog (ToolExecution (VStr "check_tuition") VUndefined);
    ConsoleError (ToolError (VStr "check_tuition")
                    "Cannot read properties of undefined (reading 'student_id')")]).
Proof. reflexivity. Qed.

(* ------------------------------------------------------------------ *)
(** ** More about the tool executor *)

(** X1.  When the backend answers a request of the executor, the executor
    returns the body of that answer as it is and writes nothing to the
    error console. *)
Theorem backend_answer_is_returned_verbatim
        (w : World) (name args : value) (h : list event)
        (ev : event) (response : AxiosResponse.t) :
  In ev (snd (executeTool w name args h)) ->
  backend_success ev response ->
  fst (executeTool w name args h) = Ok (AxiosResponse.data response) /\
  filter is_console_error (snd (executeTool w name args h)) = [].
Proof.
  unfold backend_success.
  destruct (name_cases name) as [-> | [-> | [Hc Hp]]].
  - rewrite executeTool_check_tuition. cbn zeta.
    destruct (get args "student_id"); cbn.
    + destruct (ToString _ _); cbn.
      * destruct (http_get w _ _) eqn:Hget; cbn; intros Hin Hok.
        -- destruct Hin as [<- | [<- | []]]; no_such_event.
           split; [congruence | reflexivity].
        -- destruct Hin as [<- | [<- | [<- | []]]]; no_such_event.
      * intros Hin Hok. destruct Hin as [<- | [<- | []]]; no_such_event.
    + intros Hin Hok. destruct Hin as [<- | [<- | []]]; no_such_event.
  - rewrite executeTool_pay_tuition. cbn.
    destruct (get args "student_id"); cbn.
    + destruct (get args "amount"); cbn.
      * destruct (http_post w _ _ _) eqn:Hpost; cbn; intros Hin Hok.
        -- destruct Hin as [<- | [<- | []]]; no_such_event.
           split; [congruence | reflexivity].
        -- destruct Hin as [<- | [<- | [<- | []]]]; no_such_event.
      * intros Hin Hok. destruct Hin as [<- | [<- | []]]; no_such_event.
    + intros Hin Hok. destruct Hin as [<- | [<- | []]]; no_such_event.
  - rewrite executeTool_other by assumption. cbn.
    intros [<- | []] Hok. no_such_event.
Qed.

Lemma backend_answer_is_returned_verbatim_witness :
  fst (executeTool w_tool (VStr "check_tuition") (VObj [("student_id"%string, VStr "S1")]) [])
  = Ok (VObj [("balance"%string, VNum 100)]) /\
  filter is_console_error
    (snd (executeTool w_tool (VStr "check_tuition")
            (VObj [("student_id"%string, VStr "S1")]) [])) = [].
Proof.
  refine (@backend_answer_is_returned_verbatim
            w_tool (VStr "check_tuition") (VObj [("student_id"%string, VStr "S1")]) []
            (AxiosGet "https://api.example/tuition/S1"
               (Ok (AxiosResponse.Build (VObj [("balance"%string, VNum 100)]))))
            (AxiosResponse.Build (VObj [("balance"%string, VNum 100)])) _ _).
  - right. left. reflexivity.
  - left. eexists. reflexivity.
Defined.

Lemma executeTool_footprint (w : World) (name args : value) (h : list event) :
  length (backend_calls (snd (executeTool w name args h))) <= 1 /\
  updates (snd (executeTool w name args h)) = [].
Proof.
  destruct (name_cases name) as [-> | [-> | [Hc Hp]]].
  - rewrite executeTool_check_tuition. cbn zeta.
    destruct (get args "student_id"); cbn; [|split; [lia | reflexivity]].
    destruct (ToString _ _); cbn; [|split; [lia | reflexivity]].
    destruct (http_get w _ _); cbn; split; (lia || reflexivity).
  - rewrite executeTool_pay_tuition. cbn.
    destruct (get args "student_id"); cbn; [|split; [lia | reflexivity]].
    destruct (get args "amount"); cbn; [|split; [lia | reflexivity]].
    destruct (http_post w _ _ _); cbn; split; (lia || reflexivity).
  - rewrite executeTool_other by assumption. cbn. split; [lia | reflexivity].
Qed.

(** X2.  One run of the executor sends at most one request to the backend,
    and it never touches the log or the model. *)
Theorem executor_is_contained
        (w : World) (name args : value) (h : list event) :
  length (backend_calls (snd (executeTool w name args h))) <= 1 /\
  updates (snd (executeTool w name args h)) = [] /\
  add_attempts (snd (executeTool w name args h)) = [] /\
  model_requests (snd (executeTool w name args h)) = [].
Proof.
  destruct (executeTool_footprint w name args h) as [Hcalls Hupdates].
  destruct (tool_events_add_nothing _ (executeTool_events w name args h)) as [Hadds Hmodel].
  repeat split; assumption.
Qed.

(** X3.  A known tool called with arguments that are [undefined] or [null]
    sends nothing to the backend: reading [args.student_id] throws inside
    the executor's try block, and the TypeError comes back under the label
    "API Call Failed". *)
Theorem missing_arguments_make_no_backend_call
        (w : World) (name args : value) (h : list event) (shown : string) :
  name = VStr "check_tuition" \/ name = VStr "pay_tuition" ->
  args = VUndefined /\ shown = "undefined"%string \/
  args = VNull /\ shown = "null"%string ->
  fst (executeTool w name args h) =
  Ok (VObj [("error"%string,
             VStr ("API Call Failed: Cannot read properties of " ++ shown
                   ++ " (reading 'student_id')")%string)]) /\
  backend_calls (snd (executeTool w name args h)) = [].
Proof.
  intros [-> | ->] [[-> ->] | [-> ->]].
  - rewrite executeTool_check_tuition. split; reflexivity.
  - rewrite executeTool_check_tuition. split; reflexivity.
  - rewrite executeTool_pay_tuition. split; reflexivity.
  - rewrite executeTool_pay_tuition. split; reflexivity.
Qed.

Lemma missing_arguments_make_no_backend_call_witness :
  fst (executeTool w_tool (VStr "pay_tuition") VNull []) =
  Ok (VObj [("error"%string,
             VStr "API Call Failed: Cannot read properties of null (reading 'student_id')")]) /\
  backend_calls (snd (executeTool w_tool (VStr "pay_tuition") VNull [])) = [].
Proof.
  apply (@missing_arguments_make_no_backend_call
           w_tool (VStr "pay_tuition") VNull [] "null"%string).
  - right. reflexivity.
  - right. split; reflexivity.
Defined.

(** X4.  The executor recognises exactly the tools the first request offers
    to the model: called with an argument object whose [student_id] can be
    put into a URL, it contacts the backend if and only if the name is the
    name of an offered declaration. *)
Theorem dispatcher_matches_catalogue
        (w : World) (text name : string) (fields : list (string * value))
        (h : list event) (segment : string) :
  ToString (Number_toString w) (lookup "student_id" fields) = Ok segment ->
  (In name
      (map FunctionDeclaration.name
           (match Request.tools (Request.config (first_request text)) with
            | Some tools => concat tools
            | None => []
            end)) <->
   backend_calls (snd (executeTool w (VStr name) (VObj fields) h)) <> []).
Proof.
  intros Hsegment. split.
  - intros [<- | [<- | []]].
    + rewrite executeTool_check_tuition, get_object. cbn zeta. rewrite Hsegment.
      destruct (http_get w _ _); discriminate.
    + rewrite executeTool_pay_tuition, !get_object. cbn zeta.
      destruct (http_post w _ _ _); discriminate.
  - intros Hcalls.
    destruct (name_cases (VStr name)) as [[= ->] | [[= ->] | [Hc Hp]]].
    + left. reflexivity.
    + right. left. reflexivity.
    + rewrite executeTool_other in Hcalls by assumption. now contradiction Hcalls.
Qed.

Lemma dispatcher_matches_catalogue_witness :
  In "pay_tuition"%string
     (map FunctionDeclaration.name
          (match Request.tools (Request.config (first_request "Hi")) with
           | Some tools => concat tools
           | None => []
           end)) <->
  backend_calls
    (snd (executeTool w_tool (VStr "pay_tuition")
            (VObj [("student_id"%string, VStr "S1")]) [])) <> [].
Proof.
  apply (@dispatcher_matches_catalogue
           w_tool "Hi" "pay_tuition" [("student_id"%string, VStr "S1")] [] "S1").
  reflexivity.
Defined.

(* ------------------------------------------------------------------ *)
(** ** The footprint of one change *)

Lemma updates_app (es es' : list event) :
  updates (es ++ es') = updates es ++ updates es'.
Proof. apply flat_map_app. Qed.

Lemma backend_calls_app (es es' : list event) :
  backend_calls (es ++ es') = backend_calls es ++ backend_calls es'.
Proof. apply filter_app. Qed.

Ltac split_trace :=
  rewrite ?add_attempts_app, ?appended_app, ?model_requests_app,
          ?updates_app, ?backend_calls_app, ?length_app.

Lemma tools_run_footprint (w : World) calls h outs es :
  tools_run w calls h outs es ->
  length (backend_calls es) <= length calls /\ updates es = [].
Proof.
  induction 1 as [| call rest h result es outs es' Hexec _ [IHcalls IHupdates]].
  - split; [cbn; lia | reflexivity].
  - destruct (executeTool_footprint w (FunctionCall.name call) (FunctionCall.args call) h)
      as [Hone Hnone].
    rewrite Hexec in Hone, Hnone. cbn [snd] in Hone, Hnone.
    split_trace. rewrite Hnone, IHupdates. cbn [length app]. split; [lia | reflexivity].
Qed.

Lemma handle_tool_calls_footprint (w : World) (text : string) (r1 : Response.t)
      (h : list event) :
  length (backend_calls (snd (handle_tool_calls w text r1 h)))
    <= length (requested_calls r1) /\
  updates (snd (handle_tool_calls w text r1 h)) = [] /\
  length (model_requests (snd (handle_tool_calls w text r1 h))) <= 1.
Proof.
  unfold requested_calls.
  destruct (retrievable_parts (Response.candidates r1)) as [[parts |] | e] eqn:Hparts.
  - destruct (functionCalls_of parts) as [| c rest] eqn:Hcalls.
    + rewrite (handle_tool_calls_without_calls w text h r1 Hparts Hcalls).
      cbn. repeat split; lia.
    + destruct (@handle_tool_calls_with_calls w text h r1 parts Hparts)
        as (outs & tes & Hrun & Heq); [congruence|].
      rewrite Heq. cbn [snd]. rewrite Hcalls in Hrun.
      destruct (tools_run_footprint Hrun) as [Hback Hupd].
      destruct (tool_events_add_nothing _ (tools_run_events Hrun)) as [_ Hmodel].
      split_trace. rewrite Hupd, Hmodel. cbn in *. repeat split; lia.
  - rewrite (handle_tool_calls_without_parts w text h r1 Hparts). cbn. repeat split; lia.
  - rewrite (handle_tool_calls_type_error w text h r1 Hparts). cbn. repeat split; lia.
Qed.

(** Everything step 5 can leave in the trace. *)
Lemma write_response_cases (w : World) (docId : string) (final : option string)
      (h5 : list event) :
  write_response w docId final h5 = (Ok tt, []) \/
  (exists t,
      write_response w docId final h5 =
      (Ok tt, [DbAdd (reply_entry t (clock w h5) docId) (Ok tt); ConsoleLog ReplySent])) \/
  (exists t e,
      write_response w docId final h5 =
      (Throw e, [DbAdd (reply_entry t (clock w h5) docId) (Throw e)])).
Proof.
  destruct (truthy_text final) as [t |] eqn:Ht.
  - rewrite (write_response_truthy w docId h5 final Ht). cbn zeta.
    destruct (firestore_add w h5 _) as [[] | e].
    + right. left. eexists. reflexivity.
    + right. right. eexists _, _. reflexivity.
  - left. now apply write_response_falsy.
Qed.

Lemma try_block_footprint (w : World) (change : Change.t) (h2 : list event) :
  try_footprint
    (calls_asked (generateContent w h2 (first_request (Message.text (Change.doc_data change)))))
    (fst (try_block w (Change.doc_id change) (Change.doc_data change) h2))
    (snd (try_block w (Change.doc_id change) (Change.doc_data change) h2)).
Proof.
  rewrite try_block_eq. cbn zeta.
  destruct (generateContent w h2 _) as [r1 | e1]; cbn [calls_asked].
  2:{ constructor; cbn; try lia; try reflexivity; try constructor. }
  pose proof (handle_tool_calls_adds w (Message.text (Change.doc_data change)) r1
                (h2 ++ [asked change (Ok r1)])) as Hadds.
  destruct (handle_tool_calls_footprint w (Message.text (Change.doc_data change)) r1
              (h2 ++ [asked change (Ok r1)])) as (Hback & Hupd & Hmod).
  unfold asked in Hadds, Hback, Hupd, Hmod.
  destruct (handle_tool_calls w _ _ _) as [[final | e4] es4]; cbn [snd] in *.
  - destruct (write_response_cases w (Change.doc_id change) final
                (h2 ++ GenerateContent (first_request (Message.text (Change.doc_data change)))
                         (Ok r1) :: es4))
      as [-> | [(t & ->) | (t & e & ->)]]; cbn [fst snd];
      change (GenerateContent ?q ?r :: ?l ++ ?l') with ([GenerateContent q r] ++ l ++ l');
      constructor; split_trace;
        rewrite ?Hadds, ?(appended_of_no_attempt _ Hadds), ?Hupd; cbn;
        try lia; try reflexivity; try discriminate; repeat constructor.
  - change (GenerateContent ?q ?r :: ?l) with ([GenerateContent q r] ++ l).
    constructor; split_trace;
      rewrite ?Hadds, ?(appended_of_no_attempt _ Hadds), ?Hupd; cbn;
      try lia; try reflexivity; try constructor.
Qed.

(** What one change leaves in the trace, all cases together. *)
Lemma on_change_profile (w : World) (change : Change.t) (h : list event) :
  length (backend_calls (snd (on_change w change h)))
    <= calls_asked (first_outcome w change h) /\
  length (model_requests (snd (on_change w change h))) <= 2 /\
  length (add_attempts (snd (on_change w change h))) <= 2 /\
  length (appended (snd (on_change w change h))) <= 1 /\
  Forall (fun d => Message.role d = "model"%string)
         (add_attempts (snd (on_change w change h))) /\
  (qualifies change ->
   flip_outcome w change h = Ok tt ->
   updates (snd (on_change w change h)) = [(Change.doc_id change, processed_true)] /\
   1 <= length (model_requests (snd (on_change w change h)))).
Proof.
  destruct (qualifies_decidable change) as [Hq | Hnot].
  - destruct (flip_outcome w change h) as [[] | e] eqn:Hflip.
    + pose proof (try_block_footprint w change (after_flip change h)) as Hfoot.
      fold (first_outcome w change h) in Hfoot.
      destruct (try_block w (Change.doc_id change) (Change.doc_data change)
                          (after_flip change h)) as [rt es] eqn:Htry.
      cbn [fst snd] in Hfoot. destruct Hfoot as [Hb Hu [Hm1 Hm2] Ha Hp Ht Hr].
      rewrite (on_change_try_catch w h Hq Hflip Htry).
      destruct rt as [[] | e]; cbn zeta; cbn [snd].
      * change (announced change :: flip change (Ok tt) :: es)
          with ([announced change; flip change (Ok tt)] ++ es).
        split_trace. rewrite Hu. cbn.
        repeat split; try lia; assumption.
      * change (announced change :: flip change (Ok tt) :: es ++ ?l)
          with ([announced change; flip change (Ok tt)] ++ es ++ l).
        split_trace. rewrite Hu, (Ht e eq_refl). cbn.
        repeat split; try lia.
        -- destruct (firestore_add w _ _); cbn; lia.
        -- apply Forall_app. split; [assumption | repeat constructor].
    + rewrite (on_change_flip_rejected w h Hq Hflip). cbn.
      repeat split; try lia; try constructor. discriminate.
  - rewrite (on_change_ignored w h Hnot). cbn.
    repeat split; try lia; try constructor; contradiction.
Qed.

(* ------------------------------------------------------------------ *)
(** ** More about the log bridge *)

(** X5.  When the log refuses the write of [processed: true], the handler
    stops there and its promise rejects with the log's error: the update
    stands outside the try block, so no model request is sent, no tool is
    run and nothing is added to the log, not even the apology. *)
Theorem refused_flip_leaves_entry_unanswered
        (w : World) (change : Change.t) (h : list event) (e : exn) :
  qualifies change ->
  flip_outcome w change h = Throw e ->
  fst (on_change w change h) = Throw e /\
  model_requests (snd (on_change w change h)) = [] /\
  backend_calls (snd (on_change w change h)) = [] /\
  add_attempts (snd (on_change w change h)) = [].
Proof.
  intros Hq Hflip.
  rewrite (on_change_flip_rejected w h Hq Hflip).
  repeat split.
Qed.

Lemma refused_flip_leaves_entry_unanswered_witness :
  fst (on_change w_flip_refused (user_message "Hi") []) = Throw (Error "PERMISSION_DENIED") /\
  model_requests (snd (on_change w_flip_refused (user_message "Hi") [])) = [] /\
  backend_calls (snd (on_change w_flip_refused (user_message "Hi") [])) = [] /\
  add_attempts (snd (on_change w_flip_refused (user_message "Hi") [])) = [].
Proof.
  apply (@refused_flip_leaves_entry_unanswered
           w_flip_refused (user_message "Hi") [] (Error "PERMISSION_DENIED")).
  - repeat split.
  - reflexivity.
Defined.

(** X6.  Whatever the model, the backend and the log answer, one change
    costs at most two model requests and at most two attempts to add an
    entry, and at most one entry is accepted by the log: never a reply and
    an apology both. *)
Theorem one_change_is_bounded (w : World) (change : Change.t) (h : list event) :
  length (model_requests (snd (on_change w change h))) <= 2 /\
  length (add_attempts (snd (on_change w change h))) <= 2 /\
  length (appended (snd (on_change w change h))) <= 1.
Proof.
  destruct (on_change_profile w change h) as (_ & Hmodel & Hattempts & Happended & _).
  repeat split; assumption.
Qed.

(** X7.  The only document the handler ever updates is the entry it was
    called for, and the only fields it sets are [processed: true]; it does
    so exactly once for an entry that passes the filter, and never for
    another. *)
Theorem only_the_entry_itself_is_updated
        (w : World) (change : Change.t) (h : list event) :
  (qualifies change ->
   updates (snd (on_change w change h)) =
   [(Change.doc_id change, [("processed"%string, VBool true)])]) /\
  (~ qualifies change -> updates (snd (on_change w change h)) = []).
Proof.
  split.
  - intros Hq.
    destruct (flip_outcome w change h) as [[] | e] eqn:Hflip.
    + destruct (on_change_profile w change h) as (_ & _ & _ & _ & _ & Hupd).
      exact (proj1 (Hupd Hq Hflip)).
    + now rewrite (on_change_flip_rejected w h Hq Hflip).
  - intros Hnot. now rewrite (on_change_ignored w h Hnot).
Qed.

(** X8.  The bridge does not react to what it writes: every entry the
    handler asks the log to add, reply or apology, has role 'model', so a
    change notification carrying that entry is ignored by the handler. *)
Theorem bridge_ignores_its_own_entries
        (w : World) (change : Change.t) (h : list event) (d : Message.t) :
  In d (add_attempts (snd (on_change w change h))) ->
  Message.role d = "model"%string /\
  forall (w' : World) (kind : Change.kind) (docId : string) (h' : list event),
    on_change w' (Change.Build kind docId d) h' = (Ok tt, []).
Proof.
  intros Hin.
  destruct (on_change_profile w change h) as (_ & _ & _ & _ & Hroles & _).
  rewrite Forall_forall in Hroles. specialize (Hroles d Hin).
  split; [exact Hroles|].
  intros w' kind docId h'. apply on_change_ignored.
  intros (_ & Hrole & _). cbn in Hrole. rewrite Hroles in Hrole. discriminate Hrole.
Qed.

Lemma bridge_ignores_its_own_entries_witness :
  on_change w_tool
    (Change.Build Change.added "doc2" (reply_entry "Hello!" 1700000000003 "doc1")) []
  = (Ok tt, []).
Proof.
  refine (proj2 (@bridge_ignores_its_own_entries
                   (w_plain (Some "Hello!")) (user_message "Hi") []
                   (reply_entry "Hello!" 1700000000003 "doc1") _)
                w_tool Change.added "doc2" []).
  left. reflexivity.
Defined.

(** X9.  The only errors that escape the handler are refusals of the log:
    when the handler's promise rejects with [e], its last action was the
    update of [processed] or the add of the apology, and [e] is what the
    log answered to it.  Failures of the model or of the backend never
    escape. *)
Theorem handler_rejects_only_when_log_refuses
        (w : World) (change : Change.t) (h : list event) (e : exn) :
  fst (on_change w change h) = Throw e ->
  exists pre,
    snd (on_change w change h) =
    pre ++ [DbUpdate (Change.doc_id change) [("processed"%string, VBool true)] (Throw e)] \/
    exists now,
      snd (on_change w change h) = pre ++ [DbAdd (fallback_entry now) (Throw e)].
Proof.
  intros Hrejects.
  destruct (qualifies_decidable change) as [Hq | Hnot].
  - destruct (flip_outcome w change h) as [[] | e'] eqn:Hflip.
    + destruct (try_block w (Change.doc_id change) (Change.doc_data change)
                          (after_flip change h)) as [rt es] eqn:Htry.
      rewrite (on_change_try_catch w h Hq Hflip Htry) in *.
      destruct rt as [[] | et]; [discriminate Hrejects|].
      cbn zeta in *. cbn [fst snd] in *.
      eexists (announced change :: flip change (Ok tt) :: es ++ [_]).
      right. eexists. rewrite <- Hrejects.
      cbn [app]. now rewrite <- app_assoc.
    + rewrite (on_change_flip_rejected w h Hq Hflip) in *. cbn [fst snd] in *.
      injection Hrejects as ->.
      exists [announced change]. left. reflexivity.
  - rewrite (on_change_ignored w h Hnot) in Hrejects. discriminate Hrejects.
Qed.

Lemma handler_rejects_only_when_log_refuses_witness :
  exists pre,
    snd (on_change w_log_refuses (user_message "Hi") []) =
    pre ++ [DbUpdate "doc1" [("processed"%string, VBool true)] (Throw (Error "UNAVAILABLE"))] \/
    exists now,
      snd (on_change w_log_refuses (user_message "Hi") []) =
      pre ++ [DbAdd (fallback_entry now) (Throw (Error "UNAVAILABLE"))].
Proof.
  apply (@handler_rejects_only_when_log_refuses
           w_log_refuses (user_message "Hi") [] (Error "UNAVAILABLE")).
  reflexivity.
Defined.

(** X10.  The backend is contacted at most once per function call of the
    first response, and not at all when the first request fails or its
    response holds no function call: function calls in the second response
    are never executed. *)
Theorem backend_requests_bounded_by_first_response
        (w : World) (change : Change.t) (h : list event) :
  length (backend_calls (snd (on_change w change h))) <=
  match first_outcome w change h with
  | Ok modelResponse => length (requested_calls modelResponse)
  | Throw _ => 0
  end.
Proof.
  destruct (on_change_profile w change h) as (Hbackend & _).
  exact Hbackend.
Qed.

(** A second response that asks for a tool again: the payment is never
    sent, and with no text to show the entry gets no reply. *)
Example second_round_of_tools_is_ignored :
  backend_calls (snd (on_change w_asks_again (user_message "Pay for S1") [])) =
  [AxiosGet "https://api.example/tuition/S1"
            (Ok (AxiosResponse.Build (VObj [("balance"%string, VNum 100)])))] /\
  add_attempts (snd (on_change w_asks_again (user_message "Pay for S1") [])) = [].
Proof. split; reflexivity. Qed.

(* ------------------------------------------------------------------ *)
(** ** Startup *)

Lemma process_env_truthy (rt : Boot.Runtime) (name : string) :
  truthy (Boot.process_env rt name) = false <->
  Boot.env rt name = None \/ Boot.env rt name = Some ""%string.
Proof.
  unfold Boot.process_env. destruct (Boot.env rt name) as [s |]; cbn.
  - destruct (String.eqb_spec s ""%string) as [-> | Hne]; cbn; split; intros H; auto.
    + discriminate H.
    + destruct H as [H | [= H]]; [discriminate H | contradiction].
  - split; auto.
Qed.

(** Every way the top level can go; [Hcred] says whether the credential
    is there. *)
Ltac boot_cases rt services Hcred :=
  unfold Boot.main, Boot.attempt, Boot.listen_callback;
  destruct (truthy (Boot.process_env rt "FIREBASE_SERVICE_ACCOUNT")) eqn:Hcred;
  cbn [negb];
  [destruct (Boot.JSON_parse rt _) as [serviceAccount | ?];
   [destruct (Boot.initializeApp rt _) as [[] | ?];
    [destruct (Boot.getFirestore rt) as [[] | ?];
     [destruct (Boot.GoogleGenAI rt _) as [[] | ?];
      [destruct (Boot.listen rt _) as [[] | ?];
       [|destruct (Boot.listen_error_reaches_callback rt)];
       try destruct (ToString (Number_toString services) _) as [shown | ?] eqn:Hshown
      |]|]|]|]
  |].

(** X11.  [process.exit] is called exactly when FIREBASE_SERVICE_ACCOUNT is
    unset or empty once [dotenv.config()] has run, with code 1 and right
    after the complaint is printed: up to then the process has run
    [dotenv.config()] and nothing else, so nothing was parsed or
    initialised, no route was registered, no port bound, no listener
    subscribed. *)
Theorem missing_credential_stops_startup (rt : Boot.Runtime) (services : World) :
  (Boot.env rt "FIREBASE_SERVICE_ACCOUNT" = None \/
   Boot.env rt "FIREBASE_SERVICE_ACCOUNT" = Some ""%string <->
   Boot.main rt services =
   (Boot.Exited 1,
    [Boot.DotenvConfig;
     Boot.Stderr "Missing FIREBASE_SERVICE_ACCOUNT environment variable.";
     Boot.Exit 1])) /\
  (forall code,
      In (Boot.Exit code) (snd (Boot.main rt services)) ->
      code = 1%Z /\
      (Boot.env rt "FIREBASE_SERVICE_ACCOUNT" = None \/
       Boot.env rt "FIREBASE_SERVICE_ACCOUNT" = Some ""%string)).
Proof.
  assert (Hrest : forall code,
             In (Boot.Exit code) (snd (Boot.main rt services)) ->
             code = 1%Z /\
             truthy (Boot.process_env rt "FIREBASE_SERVICE_ACCOUNT") = false).
  { intros code.
    boot_cases rt services Hcred; cbn; intros Hin;
      repeat (destruct Hin as [Hin | Hin]; [try discriminate Hin|]);
      try contradiction.
    injection Hin as <-. split; reflexivity. }
  split; [split|].
  - intros Hmissing. apply process_env_truthy in Hmissing.
    unfold Boot.main. rewrite Hmissing. reflexivity.
  - intros Heq. apply process_env_truthy. apply (Hrest 1%Z).
    rewrite Heq. cbn. do 2 right. left. reflexivity.
  - intros code Hexit. destruct (Hrest code Hexit) as [Hcode Hcred].
    split; [exact Hcode | now apply process_env_truthy].
Qed.

Lemma missing_credential_stops_startup_witness :
  Boot.main (Boot.healthy [("PORT", "8080")]%string) w_tool =
  (Boot.Exited 1,
   [Boot.DotenvConfig;
    Boot.Stderr "Missing FIREBASE_SERVICE_ACCOUNT environment variable.";
    Boot.Exit 1]).
Proof.
  apply (proj1 (proj1 (missing_credential_stops_startup
                         (Boot.healthy [("PORT", "8080")]%string) w_tool))).
  left. reflexivity.
Defined.

(** X12.  The server listens on the number 3000 exactly when PORT is unset
    or empty; otherwise it listens on the string PORT holds, as it is. *)
Theorem port_defaults_to_3000
        (rt : Boot.Runtime) (services : World) (port : value) (r : result unit) :
  In (Boot.AppListen port r) (snd (Boot.main rt services)) ->
  port = match Boot.env rt "PORT" with
         | Some s => if (s =? "")%string then VNum 3000 else VStr s
         | None => VNum 3000
         end.
Proof.
  assert (Hport : Boot.js_or (Boot.process_env rt "PORT") (VNum 3000) =
                  match Boot.env rt "PORT" with
                  | Some s => if (s =? "")%string then VNum 3000 else VStr s
                  | None => VNum 3000
                  end).
  { unfold Boot.js_or, Boot.process_env.
    destruct (Boot.env rt "PORT") as [s |]; [|reflexivity].
    cbn. destruct (s =? "")%string; reflexivity. }
  rewrite <- Hport. clear Hport.
  boot_cases rt services Hcred; cbn; intros Hin;
    repeat (destruct Hin as [Hin | Hin]; [try discriminate Hin|]);
    try contradiction; now injection Hin.
Qed.

Lemma port_defaults_to_3000_witness :
  VNum 3000 =
  match Boot.env (Boot.healthy [("FIREBASE_SERVICE_ACCOUNT", "{}"); ("PORT", "")]%string)
                 "PORT" with
  | Some s => if (s =? "")%string then VNum 3000 else VStr s
  | None => VNum 3000
  end.
Proof.
  refine (@port_defaults_to_3000
            (Boot.healthy [("FIREBASE_SERVICE_ACCOUNT", "{}"); ("PORT", "")]%string)
            w_tool (VNum 3000) (Ok tt) _).
  cbn. do 7 right. left. reflexivity.
Defined.

(** X13.  The listener on 'chats' is subscribed only by the callback of
    [app.listen], as the last step of a startup that ends running: whenever
    the subscription is in the trace, the health route was registered and
    [app.listen] called before it.  A startup that calls [process.exit] or
    is ended by an uncaught exception has subscribed nothing.  (Whether the
    callback runs when the port cannot be bound is the installed Express's
    decision; the callback itself takes no argument and does not look.) *)
Theorem listener_subscribed_only_by_listen_callback
        (rt : Boot.Runtime) (services : World) :
  (forall collection,
      In (Boot.OnSnapshot collection) (snd (Boot.main rt services)) ->
      collection = "chats"%string /\
      exists config pre r shown,
        fst (Boot.main rt services) = Boot.Running config /\
        ToString (Number_toString services) (Boot.PORT config) = Ok shown /\
        snd (Boot.main rt services) =
        pre ++ [Boot.AppGet "/"; Boot.AppListen (Boot.PORT config) r;
                Boot.Stdout ("Agent server listening on port " ++ shown)%string;
                Boot.Agent (ConsoleLog StartingListener);
                Boot.OnSnapshot "chats"] /\
        filter Boot.is_subscription pre = []) /\
  (forall config,
      fst (Boot.main rt services) = Boot.Running config ->
      In (Boot.OnSnapshot "chats") (snd (Boot.main rt services))) /\
  (forall code, fst (Boot.main rt services) = Boot.Exited code ->
     filter Boot.is_subscription (snd (Boot.main rt services)) = []) /\
  (forall e, fst (Boot.main rt services) = Boot.Crashed e ->
     filter Boot.is_subscription (snd (Boot.main rt services)) = []).
Proof.
  boot_cases rt services Hcred; cbn -[String.append];
    (split; [|split; [|split]]);
    try discriminate; try reflexivity;
    try (intros config _; do 10 right; left; reflexivity);
    intros c Hin;
    repeat (destruct Hin as [Hin | Hin]; [try discriminate Hin|]);
    try contradiction;
    injection Hin as <-; (split; [reflexivity|]);
    eexists _, [_; _; _; _; _; _], _, shown;
    (split; [reflexivity|]); (split; [exact Hshown|]);
    split; reflexivity.
Qed.

Lemma listener_subscribed_only_by_listen_callback_witness :
  In (Boot.OnSnapshot "chats")
     (snd (Boot.main (Boot.healthy [("FIREBASE_SERVICE_ACCOUNT", "{}")]%string) w_tool)).
Proof.
  refine (proj1 (proj2 (@listener_subscribed_only_by_listen_callback
                          (Boot.healthy [("FIREBASE_SERVICE_ACCOUNT", "{}")]%string) w_tool))
                {| Boot.PORT := VNum 3000; Boot.API_URL := VUndefined;
                   Boot.GEMINI_API_KEY := VUndefined |} _).
  reflexivity.
Defined.

(** With an Express that hands the error of [listen] to the callback, the
    callback announces a listening server and subscribes although the port
    is taken. *)
Example taken_port_can_still_subscribe :
  Boot.main (Boot.port_taken [("FIREBASE_SERVICE_ACCOUNT", "{}")]%string) w_tool =
  (Boot.Running {| Boot.PORT := VNum 3000; Boot.API_URL := VUndefined;
                   Boot.GEMINI_API_KEY := VUndefined |},
   [Boot.DotenvConfig;
    Boot.JsonParse "{}" (Ok (VObj [("project_id"%string, VStr "tuition")]));
    Boot.InitializeApp (VObj [("project_id"%string, VStr "tuition")]) (Ok tt);
    Boot.GetFirestore (Ok tt);
    Boot.NewGoogleGenAI VUndefined (Ok tt);
    Boot.Express;
    Boot.AppGet "/";
    Boot.AppListen (VNum 3000)
      (Throw (Error "listen EADDRINUSE: address already in use"));
    Boot.Stdout "Agent server listening on port 3000";
    Boot.Agent (ConsoleLog StartingListener);
    Boot.OnSnapshot "chats"]).
Proof. reflexivity. Qed.

(** X14.  API_URL is read from the environment without any check: when it
    is unset a running agent holds [undefined] as API_URL, and a
    check_tuition request, for a [student_id] that can be put into a URL,
    goes to the relative address 'undefined/tuition/<student_id>'. *)
Theorem unset_api_url_is_not_detected
        (rt : Boot.Runtime) (services : World)
        (fields : list (string * value)) (h : list event) (segment : string) :
  Boot.env rt "API_URL" = None ->
  ToString (Number_toString services) (lookup "student_id" fields) = Ok segment ->
  (forall config,
      fst (Boot.main rt services) = Boot.Running config ->
      Boot.API_URL config = VUndefined) /\
  exists r,
    backend_calls
      (snd (executeTool (Boot.agent_world rt services) (VStr "check_tuition")
              (VObj fields) h)) =
    [AxiosGet ("undefined/tuition/" ++ segment)%string r].
Proof.
  intros Hunset Hsegment. split.
  - clear Hsegment. intros config.
    boot_cases rt services Hcred; cbn -[String.append]; try discriminate;
      intros Hrun; injection Hrun as Hrun; subst config;
      cbn; unfold Boot.process_env; now rewrite Hunset.
  - rewrite executeTool_check_tuition, get_object. cbn zeta.
    change (Number_toString (Boot.agent_world rt services)) with (Number_toString services).
    rewrite Hsegment.
    change (API_URL (Boot.agent_world rt services)) with (Boot.env rt "API_URL").
    rewrite Hunset.
    destruct (http_get _ _ _); eexists; reflexivity.
Qed.

Lemma unset_api_url_is_not_detected_witness :
  exists r,
    backend_calls
      (snd (executeTool
              (Boot.agent_world (Boot.healthy [("FIREBASE_SERVICE_ACCOUNT", "{}")]%string)
                                w_tool)
              (VStr "check_tuition") (VObj [("student_id"%string, VStr "S1")]) [])) =
    [AxiosGet "undefined/tuition/S1" r].
Proof.
  refine (proj2 (@unset_api_url_is_not_detected
                   (Boot.healthy [("FIREBASE_SERVICE_ACCOUNT", "{}")]%string) w_tool
                   [("student_id"%string, VStr "S1")] [] "S1" _ _)).
  - reflexivity.
  - reflexivity.
Defined.

(* ------------------------------------------------------------------ *)
(** ** The front end *)

(** X15.  Submitting the form writes to the log exactly when the input is
    not blank, and then exactly one entry to 'chats': the text as typed
    (not trimmed), role 'user', [processed: false], and the sentinel that
    makes the log assign [createdAt].  A blank input does nothing beyond
    stopping the browser's default submit. *)
Theorem form_writes_iff_not_blank (b : Client.Browser) (newMessage : string) :
  (Client.trim b newMessage = ""%string ->
   Client.handleSendMessage b newMessage = [Client.PreventDefault]) /\
  (Client.trim b newMessage <> ""%string ->
   Client.written (Client.handleSendMessage b newMessage) =
   [("chats"%string,
     Message.Build newMessage "user" ServerTimestamp (VBool false) None)]).
Proof.
  unfold Client.handleSendMessage. split.
  - intros ->. reflexivity.
  - intros Hne. apply String.eqb_neq in Hne. rewrite Hne. cbn zeta.
    destruct (Client.addDoc b _ _); reflexivity.
Qed.

Lemma form_writes_iff_not_blank_witness :
  Client.written (Client.handleSendMessage (Client.browser (Ok tt)) "  What do I owe? ") =
  [("chats"%string,
    Message.Build "  What do I owe? " "user" ServerTimestamp (VBool false) None)].
Proof.
  apply (proj2 (form_writes_iff_not_blank (Client.browser (Ok tt)) "  What do I owe? ")).
  discriminate.
Defined.

(** The entry as the log stores it once it has assigned the time. *)
Lemma stored_entry_qualifies (d : Message.t) (at_ : timestamp) (docId : string) :
  Message.role d = "user"%string ->
  truthy (Message.processed d) = false ->
  qualifies (Change.Build Change.added docId
               (Message.Build (Message.text d) (Message.role d) at_
                              (Message.processed d) (Message.relatedToMessageId d))).
Proof. intros Hrole Hprocessed. repeat split; assumption. Qed.

(** X16.  What the form writes is what the bridge waits for: every entry
    the form sends to the log, once stored under any id and with any
    assigned time, passes the bridge's filter when it is notified as added;
    the bridge flips it and, when the flip is accepted, the next thing it
    does is send the model its first request: one user turn whose only part
    is the text exactly as typed, with the system instruction and the two
    tool declarations. *)
Theorem form_entries_reach_the_model
        (b : Client.Browser) (newMessage : string)
        (collection : string) (d : Message.t)
        (w : World) (docId : string) (at_ : timestamp) (h : list event) :
  In (collection, d) (Client.written (Client.handleSendMessage b newMessage)) ->
  let change :=
    Change.Build Change.added docId
      (Message.Build (Message.text d) (Message.role d) at_
                     (Message.processed d) (Message.relatedToMessageId d)) in
  qualifies change /\
  nth_error (snd (on_change w change h)) 1 =
  Some (DbUpdate docId [("processed"%string, VBool true)] (flip_outcome w change h)) /\
  (flip_outcome w change h = Ok tt ->
   nth_error (snd (on_change w change h)) 2 =
   Some (GenerateContent
           (Request.Build "gemini-2.5-flash-preview-09-2025"
              [Content.Build "user" (Some [Part.Build (Some newMessage) None None])]
              (Request.Config systemInstruction
                              (Some [[checkTuitionTool; payTuitionTool]])))
           (first_outcome w change h))).
Proof.
  intros Hin change.
  change (Request.Build "gemini-2.5-flash-preview-09-2025"
            [Content.Build "user" (Some [Part.Build (Some newMessage) None None])]
            (Request.Config systemInstruction
                            (Some [[checkTuitionTool; payTuitionTool]])))
    with (first_request newMessage).
  assert (Hd : d = Message.Build newMessage "user" ServerTimestamp (VBool false) None).
  { unfold Client.handleSendMessage in Hin.
    destruct (Client.trim b newMessage =? "")%string; [destruct Hin|].
    cbn zeta in Hin.
    destruct (Client.addDoc b _ _); cbn in Hin;
      destruct Hin as [[= _ <-] | []]; reflexivity. }
  assert (Hq : qualifies change) by (subst d; repeat split).
  split; [exact Hq|].
  destruct (flip_outcome w change h) as [[] | e] eqn:Hflip.
  - rewrite (on_change_flipped w h Hq Hflip).
    rewrite catch_eq, try_block_eq. cbn zeta.
    fold (first_outcome w change h).
    replace (Message.text (Change.doc_data change)) with newMessage by (subst d; reflexivity).
    destruct (first_outcome w change h) as [r1 | e1].
    + destruct (handle_tool_calls w _ _ _) as [[final | e4] es4].
      * destruct (write_response w _ _ _) as [[[] | e5] es5];
          [|destruct (catch_block w _ _)]; split; [reflexivity | intros _; reflexivity
                                                   | reflexivity | intros _; reflexivity].
      * destruct (catch_block w _ _). split; [reflexivity | intros _; reflexivity].
    + destruct (catch_block w _ _). split; [reflexivity | intros _; reflexivity].
  - rewrite (on_change_flip_rejected w h Hq Hflip).
    split; [reflexivity | discriminate].
Qed.

Lemma form_entries_reach_the_model_witness :
  nth_error
    (snd (on_change w_tool
            (Change.Build Change.added "doc7"
               (Message.Build "I am S1" "user" (DateOf 1699999999000) (VBool false) None))
            [])) 2 =
  Some (GenerateContent
          (Request.Build "gemini-2.5-flash-preview-09-2025"
             [Content.Build "user" (Some [Part.Build (Some "I am S1"%string) None None])]
             (Request.Config systemInstruction
                             (Some [[checkTuitionTool; payTuitionTool]])))
          (Ok (response_of [call_part "check_tuition" [("student_id"%string, VStr "S1")]]
                           None))).
Proof.
  pose proof (@form_entries_reach_the_model
                (Client.browser (Ok tt)) "I am S1" "chats"
                (Message.Build "I am S1" "user" ServerTimestamp (VBool false) None)
                w_tool "doc7" (DateOf 1699999999000) []) as H.
  cbv zeta in H.
  destruct H as (_ & _ & H).
  - left. reflexivity.
  - apply H. reflexivity.
Defined.

(** X17.  When the log refuses the entry, the form logs the error and
    switches the loading indicator off again, but the input was cleared
    before the write and is not restored: the typed text is gone. *)
Theorem refused_write_loses_the_input
        (b : Client.Browser) (s : Client.State) (e : exn) :
  Client.trim b (Client.newMessage s) <> ""%string ->
  Client.addDoc b "chats"
    (Message.Build (Client.newMessage s) "user" ServerTimestamp (VBool false) None)
  = Throw e ->
  fst (Client.submit b s) =
  {| Client.messages := Client.messages s;
     Client.newMessage := "";
     Client.loading := false |} /\
  In (Client.ConsoleError e) (snd (Client.submit b s)).
Proof.
  intros Hne Hrefused. apply String.eqb_neq in Hne.
  unfold Client.submit, Client.handleSendMessage. rewrite Hne. cbn zeta.
  unfold Client.CHATS. rewrite Hrefused. cbn. split; [reflexivity|].
  do 4 right. left. reflexivity.
Qed.

Lemma refused_write_loses_the_input_witness :
  fst (Client.submit (Client.browser (Throw network_error))
         {| Client.messages := []; Client.newMessage := "Hi"; Client.loading := false |}) =
  {| Client.messages := []; Client.newMessage := ""; Client.loading := false |} /\
  In (Client.ConsoleError network_error)
     (snd (Client.submit (Client.browser (Throw network_error))
             {| Client.messages := []; Client.newMessage := "Hi"; Client.loading := false |})).
Proof.
  apply (@refused_write_loses_the_input
           (Client.browser (Throw network_error))
           {| Client.messages := []; Client.newMessage := "Hi"; Client.loading := false |}
           network_error).
  - discriminate.
  - reflexivity.
Defined.

(** X18.  A message cannot be sent twice by submitting again: after a
    submit whose write was accepted the send button is disabled, and a
    second submit in the state the first one left writes nothing, until a
    snapshot arrives and new text is typed.  ([trim] of the empty string is
    the empty string.) *)
Theorem second_submit_writes_nothing (b : Client.Browser) (s : Client.State) :
  Client.trim b ""%string = ""%string ->
  Client.trim b (Client.newMessage s) <> ""%string ->
  Client.addDoc b "chats"
    (Message.Build (Client.newMessage s) "user" ServerTimestamp (VBool false) None)
  = Ok tt ->
  Client.send_disabled b (fst (Client.submit b s)) = true /\
  Client.written (snd (Client.submit b (fst (Client.submit b s)))) = [] /\
  fst (Client.submit b (fst (Client.submit b s))) = fst (Client.submit b s).
Proof.
  intros Hempty Hne Haccepted. apply String.eqb_neq in Hne.
  assert (Hfirst : fst (Client.submit b s) =
                   {| Client.messages := Client.messages s;
                      Client.newMessage := "";
                      Client.loading := true |}).
  { unfold Client.submit, Client.handleSendMessage. rewrite Hne. cbn zeta.
    unfold Client.CHATS. rewrite Haccepted. reflexivity. }
  rewrite Hfirst.
  unfold Client.send_disabled, Client.submit, Client.handleSendMessage. cbn.
  rewrite Hempty. cbn. repeat split.
Qed.

Lemma second_submit_writes_nothing_witness :
  Client.written
    (snd (Client.submit (Client.browser (Ok tt))
            (fst (Client.submit (Client.browser (Ok tt))
                    {| Client.messages := []; Client.newMessage := "Hi";
                       Client.loading := false |})))) = [].
Proof.
  refine (proj1 (proj2 (@second_submit_writes_nothing
                          (Client.browser (Ok tt))
                          {| Client.messages := []; Client.newMessage := "Hi";
                             Client.loading := false |} _ _ _))).
  - reflexivity.
  - discriminate.
  - reflexivity.
Defined.
